(** * The nightly-build git controller ([src/git.py]), embedded and verified

    [GitRepository] drives the external [git] tool through a POSIX shell.
    The embedding keeps the program's shape: command text is built by string
    interpolation, every shell invocation goes through one of the two runner
    helpers, and Python exceptions are results of a small state-and-error
    monad whose state is the outside world plus the console trace. *)

From Stdlib Require Import String Ascii List ZArith NArith Bool Lia.
Import ListNotations.
Local Open Scope list_scope.
Local Open Scope string_scope.

(** ** Python text and bytes

    A [bytes] value is a [string] (a sequence of 8-bit characters).  A Python
    [str] is represented by its UTF-8 encoding, so [bytes.decode("UTF-8")]
    is a validity check and [str.format] is concatenation. *)

Module Py.

Definition code (c : ascii) : N := N_of_ascii c.

Definition chr (n : N) : string := String (ascii_of_N n) EmptyString.

Definition between (lo hi : N) (c : ascii) : bool :=
  (lo <=? code c)%N && (code c <=? hi)%N.

(** The whitespace of [bytes.strip()]: space, tab, LF, VT, FF, CR. *)
Definition is_space (c : ascii) : bool :=
  (code c =? 32)%N || between 9 13 c.

Fixpoint lstrip (s : string) : string :=
  match s with
  | EmptyString => EmptyString
  | String c r => if is_space c then lstrip r else s
  end.

Fixpoint rstrip (s : string) : string :=
  match s with
  | EmptyString => EmptyString
  | String c r =>
      match rstrip r with
      | EmptyString => if is_space c then EmptyString else String c EmptyString
      | r' => String c r'
      end
  end.

Definition strip (s : string) : string := rstrip (lstrip s).

(** Continuation byte of a UTF-8 sequence. *)
Definition cont (c : ascii) : bool := between 128 191 c.

(** Second byte of a three-byte sequence led by [a]: no overlong forms
    (E0) and no surrogates (ED). *)
Definition second3 (a b : ascii) : bool :=
  if (code a =? 224)%N then between 160 191 b
  else if (code a =? 237)%N then between 128 159 b
  else cont b.

(** Second byte of a four-byte sequence led by [a]: no overlong forms
    (F0), nothing above U+10FFFF (F4). *)
Definition second4 (a b : ascii) : bool :=
  if (code a =? 240)%N then between 144 191 b
  else if (code a =? 244)%N then between 128 143 b
  else cont b.

Fixpoint utf8_valid (s : string) : bool :=
  match s with
  | EmptyString => true
  | String a r =>
      if between 0 127 a then utf8_valid r
      else if between 194 223 a then
        match r with
        | String b r1 => cont b && utf8_valid r1
        | _ => false
        end
      else if between 224 239 a then
        match r with
        | String b (String c r2) => second3 a b && cont c && utf8_valid r2
        | _ => false
        end
      else if between 240 244 a then
        match r with
        | String b (String c (String d r3)) =>
            second4 a b && cont c && cont d && utf8_valid r3
        | _ => false
        end
      else false
  end.

(** [b.decode("UTF-8")] with the default strict error handling. *)
Definition decode (b : string) : option string :=
  if utf8_valid b then Some b else None.

Definition is_empty (s : string) : bool :=
  match s with EmptyString => true | _ => false end.

(** One-character line boundaries of [str.splitlines()] below U+0080:
    LF, VT, FF, FS, GS, RS (CR is handled apart because of CR LF). *)
Definition is_linebreak (c : ascii) : bool :=
  (code c =? 10)%N || (code c =? 11)%N || (code c =? 12)%N
  || between 28 30 c.

(** [str.splitlines()] on the UTF-8 encoding: besides the one-byte
    boundaries it splits at CR LF, NEL (C2 85), U+2028 and U+2029
    (E2 80 A8, E2 80 A9).  [cur] is the line read so far. *)
Fixpoint splitlines_from (cur s : string) : list string :=
  match s with
  | EmptyString => if is_empty cur then [] else [cur]
  | String a r =>
      if (code a =? 13)%N then
        match r with
        | String b r1 =>
            if (code b =? 10)%N then cur :: splitlines_from "" r1
            else cur :: splitlines_from "" r
        | EmptyString => [cur]
        end
      else if is_linebreak a then cur :: splitlines_from "" r
      else if (code a =? 194)%N then
        match r with
        | String b r1 =>
            if (code b =? 133)%N then cur :: splitlines_from "" r1
            else splitlines_from (cur ++ String a "") r
        | EmptyString => splitlines_from (cur ++ String a "") r
        end
      else if (code a =? 226)%N then
        match r with
        | String b (String c r2) =>
            if (code b =? 128)%N && ((code c =? 168)%N || (code c =? 169)%N)
            then cur :: splitlines_from "" r2
            else splitlines_from (cur ++ String a "") r
        | _ => splitlines_from (cur ++ String a "") r
        end
      else splitlines_from (cur ++ String a "") r
  end.

Definition splitlines (s : string) : list string := splitlines_from "" s.

Fixpoint all_chars (p : ascii -> bool) (s : string) : bool :=
  match s with
  | EmptyString => true
  | String c r => p c && all_chars p r
  end.

Fixpoint map_chars (f : ascii -> ascii) (s : string) : string :=
  match s with
  | EmptyString => EmptyString
  | String c r => String (f c) (map_chars f r)
  end.

Definition is_ascii (s : string) : bool := all_chars (between 0 127) s.

Definition is_upper (c : ascii) : bool := between 65 90 c.

Definition lower_char (c : ascii) : ascii :=
  if is_upper c then ascii_of_N (code c + 32) else c.

(** [str.lower()].  On text made of ASCII characters it maps A-Z to a-z;
    the Unicode case tables that decide the other texts belong to the
    Python runtime and are taken as the parameter [unicode_lower]. *)
Definition lower (unicode_lower : string -> string) (s : string) : string :=
  if is_ascii s then map_chars lower_char s else unicode_lower s.

Definition starts_with_slash (s : string) : bool :=
  match s with
  | String c _ => (code c =? 47)%N
  | EmptyString => false
  end.

Fixpoint ends_with_slash (s : string) : bool :=
  match s with
  | EmptyString => false
  | String c EmptyString => (code c =? 47)%N
  | String _ r => ends_with_slash r
  end.

(** [os.path.join(a, b)] of [posixpath], for two components. *)
Definition path_join (a b : string) : string :=
  if starts_with_slash b || is_empty a then b
  else if ends_with_slash a then a ++ b
  else a ++ "/" ++ b.

(** [lst[i]] for a non-negative index. *)
Definition item {A : Type} (l : list A) (i : nat) : option A := nth_error l i.

(** [needle in haystack] for [str]. *)
Fixpoint contains (needle hay : string) : bool :=
  prefix needle hay
  || match hay with
     | EmptyString => false
     | String _ r => contains needle r
     end.

End Py.

(** ** Exceptions, the console trace and the command runner *)

(** The Python exceptions the module can raise. *)
Inductive exn : Type :=
| CalledProcessError (returncode : Z) (cmd : string)
| AssertionError
| IndexError
| UnicodeDecodeError.

(** What an operator observes, in order: lines written by [print] and the
    shell commands spawned, each with the exit status it returned. *)
Inductive event : Type :=
| Printed (line : string)
| Spawned (cmd : string) (returncode : Z).

Inductive outcome (A : Type) : Type :=
| Returned (a : A)
| Raised (e : exn).

Arguments Returned {A} a.
Arguments Raised {A} e.

(** The outside world: running a command line through [/bin/sh] changes
    the world and yields an exit status, and in capture mode the bytes
    written to standard output as well. *)
Class CommandRunner (W : Type) : Type := {
  sh_call : string -> W -> Z * W;
  sh_capture : string -> W -> Z * string * W
}.

Record state (W : Type) : Type := mk_state {
  world : W;
  trace : list event
}.

Arguments mk_state {W} world trace.
Arguments world {W} s.
Arguments trace {W} s.

Definition M (W A : Type) : Type := state W -> outcome A * state W.

Definition ret {W A : Type} (a : A) : M W A := fun s => (Returned a, s).

Definition raise {W A : Type} (e : exn) : M W A := fun s => (Raised e, s).

Definition bind {W A B : Type} (m : M W A) (k : A -> M W B) : M W B :=
  fun s =>
    match m s with
    | (Returned a, s') => k a s'
    | (Raised e, s') => (Raised e, s')
    end.

Notation "x <- m ;; k" := (bind m (fun x => k))
  (at level 61, m at next level, right associativity).
Notation "m ;; k" := (bind m (fun _ => k))
  (at level 61, right associativity).

Definition emit {W : Type} (e : event) : M W unit :=
  fun s => (Returned tt, mk_state (world s) (trace s ++ [e])%list).

(** [print(line)] *)
Definition print {W : Type} (line : string) : M W unit := emit (Printed line).

(** [assert cond] *)
Definition py_assert {W : Type} (cond : bool) : M W unit :=
  if cond then ret tt else raise AssertionError.

(** [opt] or the exception [e]. *)
Definition or_raise {W A : Type} (opt : option A) (e : exn) : M W A :=
  match opt with
  | Some a => ret a
  | None => raise e
  end.

(** The commands spawned in a trace, in order. *)
Fixpoint spawned (t : list event) : list string :=
  match t with
  | [] => []
  | Spawned cmd _ :: r => cmd :: spawned r
  | Printed _ :: r => spawned r
  end.

(** ** The controller *)

Record GitRepository : Type := {
  branch : string;
  path : string
}.

(** The 72 dashes of the changelog separator. *)
Definition separator : string :=
  "------------------------------------------------------------------------".

(** A double quote, as a one-character text. *)
Definition dquote : string := Py.chr 34.

Section Controller.

Context {W : Type} {runner : CommandRunner W}.

(** [str.lower] outside ASCII (see [Py.lower]). *)
Variable unicode_lower : string -> string.

(** [subprocess.call(cmd, shell=True, ...)] *)
Definition subprocess_call (cmd : string) : M W Z :=
  fun s =>
    let '(rc, w) := sh_call cmd (world s) in
    (Returned rc, mk_state w (trace s ++ [Spawned cmd rc])%list).

(** [subprocess.check_output(cmd, shell=True)] *)
Definition subprocess_check_output (cmd : string) : M W string :=
  fun s =>
    let '(rc, out, w) := sh_capture cmd (world s) in
    let s' := mk_state w (trace s ++ [Spawned cmd rc])%list in
    if (rc =? 0)%Z then (Returned out, s')
    else (Raised (CalledProcessError rc cmd), s').

Definition _format_git_cmd (self : GitRepository) (cmd : string) : string :=
  "git --git-dir='" ++ Py.path_join (path self) ".git"
  ++ "' --work-tree='" ++ path self ++ "' " ++ cmd.

Definition _git_get_output (self : GitRepository) (cmd : string) : M W string :=
  out <- subprocess_check_output (_format_git_cmd self cmd) ;;
  or_raise (Py.decode (Py.strip out)) UnicodeDecodeError.

Definition _git_redirected (self : GitRepository) (cmd : string) : M W Z :=
  print (">> git " ++ cmd) ;;
  subprocess_call (_format_git_cmd self cmd).

Definition _git_redirected_success (self : GitRepository) (cmd : string)
  : M W unit :=
  rc <- _git_redirected self cmd ;;
  py_assert (rc =? 0)%Z.

Definition get_commit (self : GitRepository) : M W string :=
  out <- _git_get_output self ("rev-parse --short " ++ branch self) ;;
  ret (Py.lower unicode_lower out).

(** The tag query of [get_log] ([n = 2]) and [get_latest_tag_commit]
    ([n = 1]). *)
Definition tag_query (pattern count : string) : string :=
  "for-each-ref --sort=-taggerdate --format '%(tag)' refs/tags | grep '"
  ++ pattern ++ "' | head -n" ++ count.

(** The [--pretty=format:] template of [get_log], between its quotes. *)
Definition log_template : string :=
  separator ++ "%n"
  ++ "commit %h%nAuthor: %an <%ad>%n"
  ++ "Commit: %cn <%cd>%n%n    %s".

Definition log_query (older newer : string) : string :=
  "log " ++ older ++ "^.." ++ newer ++ "^ --no-merges --stat"
  ++ " --pretty=format:"
  ++ dquote ++ log_template ++ dquote.

Definition get_log (self : GitRepository) (pattern : string) : M W string :=
  out <- _git_get_output self (tag_query pattern "2") ;;
  let tags := Py.splitlines out in
  older <- or_raise (Py.item tags 1) IndexError ;;
  newer <- or_raise (Py.item tags 0) IndexError ;;
  _git_get_output self (log_query older newer).

Definition get_latest_tag_commit (self : GitRepository) (pattern : string)
  : M W string :=
  tag <- _git_get_output self (tag_query pattern "1") ;;
  _git_get_output self ("rev-parse --short " ++ tag ++ "^").

Definition update_repository (self : GitRepository) : M W unit :=
  _git_redirected_success self ("checkout '" ++ branch self ++ "'") ;;
  _git_redirected_success self ("pull origin '" ++ branch self ++ "'").

Definition prepare_repo (self : GitRepository) : M W bool :=
  _git_redirected_success self ("checkout '" ++ branch self ++ "'") ;;
  rc <- _git_redirected self "diff-index --quiet HEAD --" ;;
  let has_changes := negb (rc =? 0)%Z in
  stashed_changes <-
    (if has_changes then
       print "Stashing local changes for later recovery" ;;
       _git_redirected_success self "stash -u -a" ;;
       ret true
     else ret false) ;;
  _git_redirected_success self "checkout --detach" ;;
  ret stashed_changes.

Definition commit_and_tag (self : GitRepository) (tag_name : string)
  : M W unit :=
  _git_redirected_success self "add ." ;;
  _git_redirected_success self
    "commit -m 'Automated build commit' --author='SirKnightly <SirKnightlySCP@gmail.com>'" ;;
  _git_redirected_success self ("tag -a '" ++ tag_name ++ "' -m 'Build script tag'") ;;
  _git_redirected_success self "push --tags".

Definition restore_repo (self : GitRepository) (stashed_changes : bool)
  : M W unit :=
  _git_redirected_success self ("checkout '" ++ branch self ++ "'") ;;
  if stashed_changes then
    print "Restoring previous changes" ;;
    _git_redirected_success self "stash pop"
  else ret tt.

End Controller.

(** ** The external tools, as far as the claims need them

    [git log], [grep] and the repository itself are not part of the
    program.  The models below fix the part of their documented behaviour
    that the statements about filtering, the changelog layout and the
    prepare/restore cycle refer to. *)

(** *** [git log --pretty=format:...] *)

Module Pretty.

Inductive field : Type :=
| AbbrevHash
| AuthorName
| AuthorEmail
| AuthorDate
| CommitterName
| CommitterEmail
| CommitterDate
| Subject.

Inductive piece : Type :=
| Text (c : ascii)
| Newline
| Field (f : field).

(** The placeholders of [git log]'s format strings for the fields above:
    [%h], [%an], [%ae], [%ad], [%cn], [%ce], [%cd], [%s], and [%n] for a
    line break.  Any other character stands for itself. *)
Fixpoint parse (s : string) : list piece :=
  match s with
  | EmptyString => []
  | String "%" (String "n" r) => Newline :: parse r
  | String "%" (String "h" r) => Field AbbrevHash :: parse r
  | String "%" (String "s" r) => Field Subject :: parse r
  | String "%" (String "a" (String "n" r)) => Field AuthorName :: parse r
  | String "%" (String "a" (String "e" r)) => Field AuthorEmail :: parse r
  | String "%" (String "a" (String "d" r)) => Field AuthorDate :: parse r
  | String "%" (String "c" (String "n" r)) => Field CommitterName :: parse r
  | String "%" (String "c" (String "e" r)) => Field CommitterEmail :: parse r
  | String "%" (String "c" (String "d" r)) => Field CommitterDate :: parse r
  | String c r => Text c :: parse r
  end.

Record commit : Type := {
  abbrev_hash : string;
  author_name : string;
  author_email : string;
  author_date : string;
  committer_name : string;
  committer_email : string;
  committer_date : string;
  subject : string
}.

Definition value (f : field) (c : commit) : string :=
  match f with
  | AbbrevHash => abbrev_hash c
  | AuthorName => author_name c
  | AuthorEmail => author_email c
  | AuthorDate => author_date c
  | CommitterName => committer_name c
  | CommitterEmail => committer_email c
  | CommitterDate => committer_date c
  | Subject => subject c
  end.

Definition newline : string := Py.chr 10.

Fixpoint render (ps : list piece) (c : commit) : string :=
  match ps with
  | [] => ""
  | Text ch :: r => String ch (render r c)
  | Newline :: r => newline ++ render r c
  | Field f :: r => value f c ++ render r c
  end.

(** The fields a template prints, in order. *)
Fixpoint fields (ps : list piece) : list field :=
  match ps with
  | [] => []
  | Field f :: r => f :: fields r
  | _ :: r => fields r
  end.

(** The text [git log] prints for commit [c] under [get_log]'s template
    (the [--stat] summary follows it). *)
Definition entry (c : commit) : string := render (parse log_template) c.

End Pretty.

(** *** The shell's single quotes, [grep] and [head] *)

Module Shell.

Definition quote_char : ascii := ascii_of_N 39.

(** The word the shell reads from ['text']: the text itself, provided it
    holds no single quote (one would end the quoted word early). *)
Definition single_quoted (text : string) : option string :=
  if Py.all_chars (fun c => negb (Ascii.eqb c quote_char)) text
  then Some text else None.

Fixpoint strip_prefix (p s : string) : option string :=
  match p, s with
  | EmptyString, _ => Some s
  | String a p', String b s' =>
      if Ascii.eqb a b then strip_prefix p' s' else None
  | String _ _, EmptyString => None
  end.

Fixpoint strip_suffix (suf s : string) : option string :=
  if String.eqb s suf then Some ""
  else
    match s with
    | EmptyString => None
    | String c r => option_map (String c) (strip_suffix suf r)
    end.

(** [text] between [before] and [after]. *)
Definition between_text (before after text : string) : option string :=
  match strip_prefix before text with
  | Some rest => strip_suffix after rest
  | None => None
  end.

(** Lines of output, each ended by a line feed. *)
Fixpoint unlines (ls : list string) : string :=
  match ls with
  | [] => ""
  | l :: r => l ++ Py.chr 10 ++ unlines r
  end.

End Shell.

Module Grep.

(** A fragment of POSIX basic regular expressions: ordinary characters,
    the period, a leading circumflex and a trailing dollar sign. *)
Inductive atom : Type :=
| Lit (c : ascii)
| AnyChar.

Record regex : Type := {
  at_start : bool;
  atoms : list atom;
  at_end : bool
}.

(** Characters that are not ordinary in a basic regular expression, and
    the line feed, which separates alternative patterns. *)
Definition is_special (c : ascii) : bool :=
  match c with
  | "."%char | "["%char | "\"%char | "*"%char | "^"%char | "$"%char => true
  | _ => (Py.code c =? 10)%N
  end.

(** The atoms of the pattern's body; [None] outside the fragment. *)
Fixpoint body (s : string) : option (list atom * bool) :=
  match s with
  | EmptyString => Some ([], false)
  | String "$" EmptyString => Some ([], true)
  | String "." r =>
      match body r with
      | Some (l, e) => Some (AnyChar :: l, e)
      | None => None
      end
  | String c r =>
      if is_special c then None
      else
        match body r with
        | Some (l, e) => Some (Lit c :: l, e)
        | None => None
        end
  end.

(** [grep PATTERN] reads a pattern that starts with a hyphen as an
    option, so such a pattern is outside the fragment too. *)
Definition parse (pattern : string) : option regex :=
  match pattern with
  | String "-" _ => None
  | String "^" r =>
      match body r with
      | Some (l, e) => Some {| at_start := true; atoms := l; at_end := e |}
      | None => None
      end
  | _ =>
      match body pattern with
      | Some (l, e) => Some {| at_start := false; atoms := l; at_end := e |}
      | None => None
      end
  end.

Definition atom_ok (a : atom) (c : ascii) : bool :=
  match a with
  | Lit x => Ascii.eqb x c
  | AnyChar => true
  end.

Fixpoint match_here (l : list atom) (e : bool) (s : string) : bool :=
  match l with
  | [] => if e then Py.is_empty s else true
  | a :: l' =>
      match s with
      | EmptyString => false
      | String c s' => atom_ok a c && match_here l' e s'
      end
  end.

Fixpoint match_anywhere (l : list atom) (e : bool) (s : string) : bool :=
  match_here l e s
  || match s with
     | EmptyString => false
     | String _ s' => match_anywhere l e s'
     end.

(** Does the line hold a match of the expression? *)
Definition selects (re : regex) (line : string) : bool :=
  if at_start re then match_here (atoms re) (at_end re) line
  else match_anywhere (atoms re) (at_end re) line.

(** [... | grep 'pattern' | head -n count] over the lines [input]. *)
Definition pipeline (pattern : string) (count : nat) (input : list string)
  : option (list string) :=
  match Shell.single_quoted pattern with
  | None => None
  | Some word =>
      match parse word with
      | None => None
      | Some re => Some (firstn count (filter (selects re) input))
      end
  end.

(** The filter as the specification words it: the lines that contain the
    pattern as a literal substring. *)
Definition substring_filter (pattern : string) (count : nat)
  (input : list string) : list string :=
  firstn count (filter (Py.contains pattern) input).

(** Patterns on which the two agree: ordinary characters only, no single
    quote, no leading hyphen. *)
Definition ordinary (c : ascii) : bool :=
  negb (is_special c) && negb (Ascii.eqb c Shell.quote_char).

Definition plain (pattern : string) : bool :=
  Py.all_chars ordinary pattern
  && match pattern with
     | String "-" _ => false
     | _ => true
     end.

End Grep.

(** *** A repository behind the shell *)

Module Sim.

(** A tree: the blob recorded for each path. *)
Definition tree : Type := list (string * string).

Fixpoint blob (p : string) (t : tree) : option string :=
  match t with
  | [] => None
  | (q, b) :: rest => if String.eqb q p then Some b else blob p rest
  end.

Definition same_blob (a b : option string) : bool :=
  match a, b with
  | Some x, Some y => String.eqb x y
  | None, None => true
  | _, _ => false
  end.

(** The part of a repository the controller's commands read and write:
    the branch HEAD is attached to, the tree of the commit checked out,
    the local branches with the tree of their tip, the tracked files
    with uncommitted changes, the untracked and ignored files, and the
    stash list.  [unstashable] holds what [diff-index] reports as changed
    although [stash] finds nothing to save in it: a submodule with
    changes inside, a tracked file whose index entry is stale.  [tags]
    lists the annotated tags, newest tagger date first, each with the
    abbreviated hash of the first parent of the commit it marks. *)
Record repo : Type := {
  head : option string;
  base : tree;
  branches : list (string * tree);
  modified : list string;
  untracked : list string;
  unstashable : list string;
  stash : list (list string * list string);
  tags : list (string * string)
}.

Definition moved_to (h : option string) (t : tree) (r : repo) : repo :=
  {| head := h; base := t; branches := branches r; modified := modified r;
     untracked := untracked r; unstashable := unstashable r;
     stash := stash r; tags := tags r |}.

Definition with_head (h : option string) (r : repo) : repo :=
  moved_to h (base r) r.

Definition with_tree (m u : list string)
  (st : list (list string * list string)) (r : repo) : repo :=
  {| head := head r; base := base r; branches := branches r; modified := m;
     untracked := u; unstashable := unstashable r; stash := st;
     tags := tags r |}.

Definition is_nil {A : Type} (l : list A) : bool :=
  match l with [] => true | _ => false end.

Fixpoint tip (name : string) (bs : list (string * tree)) : option tree :=
  match bs with
  | [] => None
  | (b, t) :: rest => if String.eqb b name then Some t else tip name rest
  end.

(** The local files a switch to the tree [t] would overwrite: modified
    or untracked paths whose blob in [t] is not the one of the commit
    checked out. *)
Definition overwritten (t : tree) (r : repo) : list string :=
  filter (fun p => negb (same_blob (blob p (base r)) (blob p t)))
    (modified r ++ untracked r)%list.

(** [git checkout 'name']: refused, with status 1, when there is no such
    branch or when local changes would be overwritten. *)
Definition checkout (name : string) (r : repo) : Z * repo :=
  match tip name (branches r) with
  | None => (1%Z, r)
  | Some t =>
      if is_nil (overwritten t r) then (0%Z, moved_to (Some name) t r)
      else (1%Z, r)
  end.

(** [git checkout --detach] *)
Definition detach (r : repo) : Z * repo := (0%Z, with_head None r).

(** [git diff-index --quiet HEAD --]: status 1 when a tracked file
    differs from the commit checked out, and also for what [stash] cannot
    save. *)
Definition diff_index (r : repo) : Z * repo :=
  (if is_nil (modified r) && is_nil (unstashable r) then 0%Z else 1%Z, r).

(** [git stash -u -a]: with nothing to save it reports so and succeeds
    without an entry. *)
Definition stash_all (r : repo) : Z * repo :=
  if is_nil (modified r) && is_nil (untracked r) then (0%Z, r)
  else (0%Z, with_tree [] [] ((modified r, untracked r) :: stash r) r).

(** [git stash pop] onto a tree with no modified or untracked file. *)
Definition stash_pop (r : repo) : option (Z * repo) :=
  match stash r with
  | [] => Some (1%Z, r)
  | (m, u) :: rest =>
      if is_nil (modified r) && is_nil (untracked r)
      then Some (0%Z, with_tree m u rest r)
      else None
  end.

(** The action behind the text that follows the [git --git-dir=...
    --work-tree=...] words; [None] for what the model does not cover. *)
Definition action (args : string) (r : repo) : option (Z * repo) :=
  if String.eqb args "checkout --detach" then Some (detach r)
  else if String.eqb args "diff-index --quiet HEAD --" then Some (diff_index r)
  else if String.eqb args "stash -u -a" then Some (stash_all r)
  else if String.eqb args "stash pop" then stash_pop r
  else
    match Shell.between_text "checkout '" "'" args with
    | Some text =>
        match Shell.single_quoted text with
        | Some name => Some (checkout name r)
        | None => None
        end
    | None => None
    end.

Fixpoint parent_of (tag : string) (ts : list (string * string))
  : option string :=
  match ts with
  | [] => None
  | (t, h) :: rest => if String.eqb t tag then Some h else parent_of tag rest
  end.

Definition tag_lines (pattern : string) (count : nat) (r : repo)
  : option (Z * string) :=
  match Grep.pipeline pattern count (map fst (tags r)) with
  | Some ls => Some (0%Z, Shell.unlines ls)
  | None => None
  end.

(** The query behind the text that follows the [git] words: the two tag
    pipelines, and [rev-parse --short TAG^]. *)
Definition query (args : string) (r : repo) : option (Z * string) :=
  match Shell.between_text
          "for-each-ref --sort=-taggerdate --format '%(tag)' refs/tags | grep '"
          "' | head -n2" args with
  | Some pattern => tag_lines pattern 2 r
  | None =>
      match Shell.between_text
              "for-each-ref --sort=-taggerdate --format '%(tag)' refs/tags | grep '"
              "' | head -n1" args with
      | Some pattern => tag_lines pattern 1 r
      | None =>
          match Shell.between_text "rev-parse --short " "^" args with
          | Some tag =>
              match parent_of tag (tags r) with
              | Some h => Some (0%Z, h ++ Py.chr 10)
              | None => Some (128%Z, "")
              end
          | None => None
          end
      end
  end.

(** The words every command of the controller bound to [self] starts
    with.  A path with a single quote in it is outside the model. *)
Definition git_words (self : GitRepository) : option string :=
  match Shell.single_quoted (path self) with
  | Some _ => Some (_format_git_cmd self "")
  | None => None
  end.

Definition arguments (self : GitRepository) (cmd : string) : option string :=
  match git_words self with
  | Some words => Shell.strip_prefix words cmd
  | None => None
  end.

(** The world is the repository at [path self], or [None] once a command
    outside the model has run. *)
Definition run_call (self : GitRepository) (cmd : string) (w : option repo)
  : Z * option repo :=
  match w with
  | None => (1%Z, None)
  | Some r =>
      match arguments self cmd with
      | Some args =>
          match action args r with
          | Some (rc, r') => (rc, Some r')
          | None => (1%Z, None)
          end
      | None => (1%Z, None)
      end
  end.

Definition run_capture (self : GitRepository) (cmd : string) (w : option repo)
  : Z * string * option repo :=
  match w with
  | None => (1%Z, "", None)
  | Some r =>
      match arguments self cmd with
      | Some args =>
          match query args r with
          | Some (rc, out) => (rc, out, Some r)
          | None => (1%Z, "", None)
          end
      | None => (1%Z, "", None)
      end
  end.

Definition runner (self : GitRepository) : CommandRunner (option repo) :=
  {| sh_call := run_call self; sh_capture := run_capture self |}.

End Sim.

(** *** A scripted shell

    The world is the list of answers still to give: each command takes the
    next one, whatever its text. *)

Module Script.

Definition answer : Type := (Z * string)%type.

Definition run_call (cmd : string) (w : list answer) : Z * list answer :=
  match w with
  | [] => (127%Z, [])
  | (rc, _) :: rest => (rc, rest)
  end.

Definition run_capture (cmd : string) (w : list answer)
  : Z * string * list answer :=
  match w with
  | [] => (127%Z, "", [])
  | (rc, out) :: rest => (rc, out, rest)
  end.

Definition runner : CommandRunner (list answer) :=
  {| sh_call := run_call; sh_capture := run_capture |}.

End Script.

(** A run from an empty trace. *)
Definition start {W : Type} (w : W) : state W := mk_state w [].

(** The command line as the specification writes it:
    [git --git-dir='<path>/.git' --work-tree='<path>' <cmd>]. *)
Definition documented_git_cmd (repo_path cmd : string) : string :=
  "git --git-dir='" ++ repo_path ++ "/.git' --work-tree='" ++ repo_path
  ++ "' " ++ cmd.

(** The four steps of [commit_and_tag], as [git] arguments. *)
Definition commit_and_tag_steps (tag_name : string) : list string :=
  [ "add .";
    "commit -m 'Automated build commit' --author='SirKnightly <SirKnightlySCP@gmail.com>'";
    "tag -a '" ++ tag_name ++ "' -m 'Build script tag'";
    "push --tags" ].

(** A chain of steps, each of which must succeed before the next runs. *)
Fixpoint run_all {W : Type} {runner : CommandRunner W}
  (self : GitRepository) (cmds : list string) : M W unit :=
  match cmds with
  | [] => ret tt
  | [c] => _git_redirected_success self c
  | c :: r => _git_redirected_success self c ;; run_all self r
  end.

(** A controller used in the worked examples. *)
Definition demo : GitRepository :=
  {| branch := "master"; path := "/srv/build" |}.

(** A repository on another branch, with one modified and one untracked
    file, and a single annotated tag. *)
Definition sample_repo : Sim.repo :=
  {| Sim.head := Some "dev";
     Sim.base := [("README", "r2"); ("build.log", "b1")];
     Sim.branches :=
       [("master", [("README", "r1"); ("build.log", "b1")]);
        ("dev", [("README", "r2"); ("build.log", "b1")])];
     Sim.modified := ["build.log"];
     Sim.untracked := ["notes.txt"];
     Sim.unstashable := [];
     Sim.stash := [];
     Sim.tags := [("v1", "abc1234")] |}.






Definition sample_commit : Pretty.commit :=
  {| Pretty.abbrev_hash := "abc1234";
     Pretty.author_name := "Alice";
     Pretty.author_email := "alice@example.org";
     Pretty.author_date := "Mon Jan 1 12:00:00 2024 +0000";
     Pretty.committer_name := "Bob";
     Pretty.committer_email := "bob@example.org";
     Pretty.committer_date := "Tue Jan 2 12:00:00 2024 +0000";
     Pretty.subject := "Fix the build" |}.

(** [c] with other e-mail addresses. *)
Definition with_emails (author committer : string) (c : Pretty.commit)
  : Pretty.commit :=
  {| Pretty.abbrev_hash := Pretty.abbrev_hash c;
     Pretty.author_name := Pretty.author_name c;
     Pretty.author_email := author;
     Pretty.author_date := Pretty.author_date c;
     Pretty.committer_name := Pretty.committer_name c;
     Pretty.committer_email := committer;
     Pretty.committer_date := Pretty.committer_date c;
     Pretty.subject := Pretty.subject c |}.

(** The lines written to the console in a trace, in order. *)
Fixpoint printed (t : list event) : list string :=
  match t with
  | [] => []
  | Printed line :: r => line :: printed r
  | Spawned _ _ :: r => printed r
  end.

(** Every command of the trace comes right after the console line
    [>> git <arguments>] that announces it. *)
Fixpoint echoed (self : GitRepository) (t : list event) : bool :=
  match t with
  | [] => true
  | Spawned _ _ :: _ => false
  | Printed line :: r =>
      match r with
      | Spawned cmd _ :: r' =>
          match Shell.strip_prefix ">> git " line with
          | Some args =>
              String.eqb cmd (_format_git_cmd self args) && echoed self r'
          | None => false
          end
      | _ => echoed self r
      end
  end.

(** The exit statuses recorded in a trace, in order. *)
Fixpoint statuses (t : list event) : list Z :=
  match t with
  | [] => []
  | Spawned _ rc :: r => rc :: statuses r
  | Printed _ :: r => statuses r
  end.

(** How many commands a computation spawns from state [s]. *)
Definition spawn_count {W A : Type} (m : M W A) (s : state W) : nat :=
  length (spawned (trace (snd (m s)))) - length (spawned (trace s)).

(** The last character of [s], or [d] for the empty text. *)
Fixpoint last_char (s : string) (d : ascii) : ascii :=
  match s with
  | EmptyString => d
  | String c r => last_char r c
  end.

(** ** Facts about text *)

Lemma append_empty_r (s : string) : s ++ "" = s.
Proof. induction s as [|c s IH]; simpl; [reflexivity | now rewrite IH]. Qed.

Lemma append_assoc (a b c : string) : (a ++ b) ++ c = a ++ (b ++ c).
Proof. induction a as [|x a IH]; simpl; [reflexivity | now rewrite IH]. Qed.

Lemma append_length (a b : string) :
  String.length (a ++ b) = (String.length a + String.length b)%nat.
Proof. induction a as [|x a IH]; simpl; [reflexivity | now rewrite IH]. Qed.

Lemma append_cancel_l (p a b : string) : p ++ a = p ++ b -> a = b.
Proof.
  induction p as [|x p IH]; simpl; intros E; [exact E |].
  injection E as E. now apply IH.
Qed.

Lemma strip_prefix_append (p s : string) :
  Shell.strip_prefix p (p ++ s) = Some s.
Proof.
  induction p as [|x p IH]; simpl; [now destruct s |].
  now rewrite Ascii.eqb_refl.
Qed.

Lemma strip_suffix_append (p suf : string) :
  Shell.strip_suffix suf (p ++ suf) = Some p.
Proof.
  induction p as [|x p IH].
  - simpl. destruct suf; simpl; [reflexivity |].
    now rewrite Ascii.eqb_refl, String.eqb_refl.
  - change (String x p ++ suf) with (String x (p ++ suf)).
    cbn [Shell.strip_suffix].
    destruct (String.eqb (String x (p ++ suf)) suf) eqn:E.
    + apply String.eqb_eq in E.
      apply (f_equal String.length) in E.
      simpl in E. rewrite append_length in E. lia.
    + now rewrite IH.
Qed.

Lemma strip_suffix_sound (suf s p : string) :
  Shell.strip_suffix suf s = Some p -> s = p ++ suf.
Proof.
  revert p. induction s as [|c s IH]; intros p.
  - simpl. destruct suf; simpl; [intros [= <-]; reflexivity | discriminate].
  - cbn [Shell.strip_suffix].
    destruct (String.eqb (String c s) suf) eqn:E.
    + intros [= <-]. now apply String.eqb_eq in E.
    + destruct (Shell.strip_suffix suf s) as [q|]; [| discriminate].
      simpl. intros [= <-]. simpl. now rewrite (IH q eq_refl).
Qed.

Lemma last_char_append (a b : string) (d : ascii) :
  last_char (a ++ b) d = last_char b (last_char a d).
Proof. revert d. induction a as [|x a IH]; intros d; simpl; [reflexivity | apply IH]. Qed.

Lemma lstrip_idem (s : string) : Py.lstrip (Py.lstrip s) = Py.lstrip s.
Proof.
  induction s as [|c s IH]; simpl; [reflexivity |].
  destruct (Py.is_space c) eqn:E; [exact IH |].
  simpl. now rewrite E.
Qed.

Lemma rstrip_idem (s : string) : Py.rstrip (Py.rstrip s) = Py.rstrip s.
Proof.
  induction s as [|c s IH]; simpl; [reflexivity |].
  destruct (Py.rstrip s) as [|d r] eqn:E.
  - destruct (Py.is_space c) eqn:Ec; simpl; [reflexivity | now rewrite Ec].
  - change (Py.rstrip (String c (String d r))) with
      (match Py.rstrip (String d r) with
       | EmptyString =>
           if Py.is_space c then EmptyString else String c EmptyString
       | r' => String c r'
       end).
    now rewrite IH.
Qed.

Lemma lstrip_rstrip (s : string) :
  Py.lstrip (Py.rstrip s) = Py.rstrip (Py.lstrip s).
Proof.
  induction s as [|c s IH]; [reflexivity |].
  cbn [Py.lstrip Py.rstrip].
  destruct (Py.is_space c) eqn:Ec.
  - rewrite <- IH. destruct (Py.rstrip s) as [|d r]; [reflexivity |].
    cbn [Py.lstrip]. now rewrite Ec.
  - cbn [Py.rstrip].
    destruct (Py.rstrip s) as [|d r]; rewrite ?Ec; cbn [Py.lstrip]; now rewrite Ec.
Qed.

(** Text returned by [strip] has no white space at either end. *)
Lemma strip_trimmed (s : string) :
  Py.lstrip (Py.strip s) = Py.strip s /\ Py.rstrip (Py.strip s) = Py.strip s.
Proof.
  unfold Py.strip. split.
  - now rewrite lstrip_rstrip, lstrip_idem.
  - apply rstrip_idem.
Qed.

Lemma all_chars_lstrip (p : ascii -> bool) (s : string) :
  Py.all_chars p s = true -> Py.all_chars p (Py.lstrip s) = true.
Proof.
  induction s as [|c s IH]; simpl; [trivial |].
  intros H. apply andb_prop in H as [Hc Hs].
  destruct (Py.is_space c); [now apply IH |].
  simpl. now rewrite Hc, Hs.
Qed.

Lemma all_chars_rstrip (p : ascii -> bool) (s : string) :
  Py.all_chars p s = true -> Py.all_chars p (Py.rstrip s) = true.
Proof.
  induction s as [|c s IH]; simpl; [trivial |].
  intros H. apply andb_prop in H as [Hc Hs].
  specialize (IH Hs).
  destruct (Py.rstrip s) as [|d r].
  - destruct (Py.is_space c); simpl; [reflexivity | now rewrite Hc].
  - change (Py.all_chars p (String c (String d r)))
      with (p c && Py.all_chars p (String d r)).
    now rewrite Hc, IH.
Qed.

Lemma all_chars_strip (p : ascii -> bool) (s : string) :
  Py.all_chars p s = true -> Py.all_chars p (Py.strip s) = true.
Proof. intros H. unfold Py.strip. now apply all_chars_rstrip, all_chars_lstrip. Qed.

Lemma ascii_utf8_valid (s : string) :
  Py.is_ascii s = true -> Py.utf8_valid s = true.
Proof.
  unfold Py.is_ascii.
  induction s as [|c s IH]; simpl; [trivial |].
  intros H. apply andb_prop in H as [Hc Hs].
  rewrite Hc. now apply IH.
Qed.

Lemma code_of_N (n : N) : (n < 256)%N -> Py.code (ascii_of_N n) = n.
Proof. intros H. unfold Py.code. now apply N_ascii_embedding. Qed.

Lemma lower_char_not_upper (c : ascii) :
  Py.is_upper (Py.lower_char c) = false.
Proof.
  unfold Py.lower_char.
  destruct (Py.is_upper c) eqn:E; [| exact E].
  unfold Py.is_upper, Py.between in *.
  apply andb_prop in E as [E1 E2].
  apply N.leb_le in E1, E2.
  rewrite code_of_N by lia.
  apply andb_false_iff. right. apply N.leb_gt. lia.
Qed.

Lemma lower_char_space (c : ascii) :
  Py.is_space (Py.lower_char c) = Py.is_space c.
Proof.
  unfold Py.lower_char.
  destruct (Py.is_upper c) eqn:E; [| reflexivity].
  unfold Py.is_upper, Py.is_space, Py.between in *.
  apply andb_prop in E as [E1 E2].
  apply N.leb_le in E1, E2.
  rewrite code_of_N by lia.
  transitivity false; [| symmetry];
    (apply orb_false_iff; split;
     [apply N.eqb_neq; lia | apply andb_false_iff; right; apply N.leb_gt; lia]).
Qed.

Lemma lower_no_upper (s : string) :
  Py.all_chars (fun c => negb (Py.is_upper c)) (Py.map_chars Py.lower_char s)
  = true.
Proof.
  induction s as [|c s IH]; simpl; [reflexivity |].
  now rewrite lower_char_not_upper, IH.
Qed.

Lemma lstrip_map_lower (s : string) :
  Py.lstrip (Py.map_chars Py.lower_char s)
  = Py.map_chars Py.lower_char (Py.lstrip s).
Proof.
  induction s as [|c s IH]; simpl; [reflexivity |].
  rewrite lower_char_space. now destruct (Py.is_space c).
Qed.

Lemma rstrip_map_lower (s : string) :
  Py.rstrip (Py.map_chars Py.lower_char s)
  = Py.map_chars Py.lower_char (Py.rstrip s).
Proof.
  induction s as [|c s IH]; simpl; [reflexivity |].
  rewrite IH, lower_char_space.
  destruct (Py.rstrip s); simpl; [now destruct (Py.is_space c) | reflexivity].
Qed.

(** ** Facts about runs *)

Lemma spawned_app (a b : list event) :
  spawned (a ++ b)%list = (spawned a ++ spawned b)%list.
Proof.
  induction a as [|e a IH]; simpl; [reflexivity |].
  destruct e; simpl; now rewrite IH.
Qed.

Lemma statuses_app (a b : list event) :
  statuses (a ++ b)%list = (statuses a ++ statuses b)%list.
Proof.
  induction a as [|e a IH]; simpl; [reflexivity |].
  destruct e; simpl; now rewrite IH.
Qed.

Lemma format_git_cmd_inj (self : GitRepository) (a b : string) :
  _format_git_cmd self a = _format_git_cmd self b -> a = b.
Proof.
  unfold _format_git_cmd. intros E.
  repeat (apply append_cancel_l in E). exact E.
Qed.

Section Runs.

Context {W : Type} {runner : CommandRunner W}.

Lemma bind_run {A B : Type} (m : M W A) (k : A -> M W B) (s : state W) :
  bind m k s =
  match m s with
  | (Returned a, s') => k a s'
  | (Raised e, s') => (Raised e, s')
  end.
Proof. reflexivity. Qed.

Lemma redirected_run (self : GitRepository) (cmd : string) (s : state W) :
  _git_redirected self cmd s =
  (Returned (fst (sh_call (_format_git_cmd self cmd) (world s))),
   mk_state (snd (sh_call (_format_git_cmd self cmd) (world s)))
     (trace s ++ [Printed (">> git " ++ cmd);
                  Spawned (_format_git_cmd self cmd)
                    (fst (sh_call (_format_git_cmd self cmd) (world s)))])%list).
Proof.
  unfold _git_redirected, bind, print, emit, subprocess_call.
  cbn [world trace].
  destruct (sh_call (_format_git_cmd self cmd) (world s)) as [rc w].
  cbn [fst snd]. now rewrite <- app_assoc.
Qed.

Lemma success_run (self : GitRepository) (cmd : string) (s : state W) :
  _git_redirected_success self cmd s =
  ((if (fst (sh_call (_format_git_cmd self cmd) (world s)) =? 0)%Z
    then Returned tt else Raised AssertionError),
   mk_state (snd (sh_call (_format_git_cmd self cmd) (world s)))
     (trace s ++ [Printed (">> git " ++ cmd);
                  Spawned (_format_git_cmd self cmd)
                    (fst (sh_call (_format_git_cmd self cmd) (world s)))])%list).
Proof.
  unfold _git_redirected_success. rewrite bind_run, redirected_run.
  unfold py_assert, ret, raise.
  now destruct (fst (sh_call (_format_git_cmd self cmd) (world s)) =? 0)%Z.
Qed.

Lemma get_output_run (self : GitRepository) (cmd : string) (s : state W) :
  _git_get_output self cmd s =
  (let rc := fst (fst (sh_capture (_format_git_cmd self cmd) (world s))) in
   let out := snd (fst (sh_capture (_format_git_cmd self cmd) (world s))) in
   if (rc =? 0)%Z then
     match Py.decode (Py.strip out) with
     | Some text => Returned text
     | None => Raised UnicodeDecodeError
     end
   else Raised (CalledProcessError rc (_format_git_cmd self cmd)),
   mk_state (snd (sh_capture (_format_git_cmd self cmd) (world s)))
     (trace s ++ [Spawned (_format_git_cmd self cmd)
                    (fst (fst (sh_capture (_format_git_cmd self cmd)
                                 (world s))))])%list).
Proof.
  unfold _git_get_output, bind, subprocess_check_output, or_raise, ret, raise.
  destruct (sh_capture (_format_git_cmd self cmd) (world s)) as [[rc out] w].
  cbn [fst snd].
  destruct (rc =? 0)%Z; [| reflexivity].
  now destruct (Py.decode (Py.strip out)).
Qed.

Lemma spawn_count_app {A : Type} (m : M W A) (s : state W) (ev : list event) :
  trace (snd (m s)) = (trace s ++ ev)%list ->
  spawn_count m s = length (spawned ev).
Proof.
  intros E. unfold spawn_count.
  rewrite E, spawned_app, length_app. lia.
Qed.

End Runs.


(** Case analysis on every exit status a run consults. *)
Ltac crank :=
  repeat (cbn [world trace fst snd negb];
          first
            [ match goal with
              | |- context [(?rc =? 0)%Z] => destruct (rc =? 0)%Z
              end
            | match goal with
              | |- context [sh_call ?c ?w] => destruct (sh_call c w) as [? ?]
              end
            | match goal with
              | |- context [sh_capture ?c ?w] =>
                  destruct (sh_capture c w) as [[? ?] ?]
              end ]);
  cbn [world trace fst snd negb app]; rewrite <- ?app_assoc;
  try reflexivity.

(** Case analysis for counting the commands an operation spawns. *)
Ltac count_spawns :=
  unfold spawn_count, get_commit, get_log, get_latest_tag_commit,
    update_repository, prepare_repo, commit_and_tag, restore_repo,
    _git_get_output, _git_redirected_success, _git_redirected, bind, print,
    emit, subprocess_call, subprocess_check_output, or_raise, py_assert,
    ret, raise;
  repeat (cbn [world trace fst snd negb];
          first
            [ match goal with
              | |- context [(?rc =? 0)%Z] => destruct (rc =? 0)%Z
              end
            | match goal with
              | |- context [Py.decode ?x] => destruct (Py.decode x)
              end
            | match goal with
              | |- context [Py.item ?l ?n] => destruct (Py.item l n)
              end
            | match goal with
              | |- context [sh_call ?c ?w] => destruct (sh_call c w) as [? ?]
              end
            | match goal with
              | |- context [sh_capture ?c ?w] =>
                  destruct (sh_capture c w) as [[? ?] ?]
              end ]);
  cbn [world trace fst snd];
  rewrite <- ?app_assoc, ?spawned_app, ?length_app;
  cbn [spawned length app];
  try (intros; discriminate); try lia.

(** ** The lifecycle operations against any shell *)

Section Lifecycle.

Context {W : Type} {runner : CommandRunner W}.

(** A chain of fatal steps runs them in order and stops at the first one
    whose exit status is not zero. *)
Lemma run_all_spec (self : GitRepository) (cmds : list string) (s : state W) :
  cmds <> [] ->
  exists (n : nat) (events : list event) (rc : Z),
    trace (snd (run_all self cmds s)) = (trace s ++ events)%list
    /\ (1 <= n <= length cmds)%nat
    /\ spawned events = map (_format_git_cmd self) (firstn n cmds)
    /\ statuses events = (repeat 0%Z (n - 1) ++ [rc])%list
    /\ ((rc = 0%Z /\ n = length cmds
         /\ fst (run_all self cmds s) = Returned tt)
        \/ (rc <> 0%Z /\ fst (run_all self cmds s) = Raised AssertionError)).
Proof.
  revert s. induction cmds as [|c r IH]; intros s Hne; [congruence |].
  destruct r as [|c' r'].
  - cbn [run_all]. rewrite success_run.
    exists 1%nat. eexists.
    exists (fst (sh_call (_format_git_cmd self c) (world s))).
    cbn [fst snd trace length].
    split; [reflexivity |]. split; [lia |].
    split; [reflexivity |]. split; [reflexivity |].
    destruct (fst (sh_call (_format_git_cmd self c) (world s)) =? 0)%Z eqn:E.
    + left. apply Z.eqb_eq in E. auto.
    + right. apply Z.eqb_neq in E. auto.
  - change (run_all self (c :: c' :: r'))
      with (_git_redirected_success self c ;; run_all self (c' :: r')).
    rewrite bind_run, success_run.
    destruct (fst (sh_call (_format_git_cmd self c) (world s)) =? 0)%Z eqn:E.
    + apply Z.eqb_eq in E.
      match goal with
      | |- context [run_all self (c' :: r') ?st] =>
          destruct (IH st) as (n & ev & rc & Ht & Hn & Hs & Hz & Hr);
            [discriminate |]
      end.
      exists (S n). eexists. exists rc.
      rewrite Ht. cbn [trace]. rewrite <- app_assoc.
      split; [reflexivity |]. split; [cbn [length] in *; lia |].
      split; [| split].
      * rewrite spawned_app, Hs. reflexivity.
      * rewrite statuses_app, Hz, E.
        destruct n as [|n]; [lia |]. cbn [statuses app].
        replace (S (S n) - 1)%nat with (S n) by lia.
        replace (S n - 1)%nat with n by lia. reflexivity.
      * destruct Hr as [(H0 & Hlen & Hres) | (H0 & Hres)].
        -- left. cbn [length] in *. auto.
        -- right. auto.
    + apply Z.eqb_neq in E.
      exists 1%nat. eexists.
      exists (fst (sh_call (_format_git_cmd self c) (world s))).
      cbn [fst snd trace length].
      split; [reflexivity |]. split; [lia |].
      split; [reflexivity |]. split; [reflexivity |].
      right. auto.
Qed.


(** The whole of [prepare_repo], by the exit statuses it meets. *)
Lemma prepare_repo_run (self : GitRepository) (s : state W) :
  prepare_repo self s =
  let co := "checkout '" ++ branch self ++ "'" in
  let '(rc1, w1) := sh_call (_format_git_cmd self co) (world s) in
  let t1 := (trace s ++ [Printed (">> git " ++ co);
                         Spawned (_format_git_cmd self co) rc1])%list in
  if (rc1 =? 0)%Z then
    let '(rc2, w2) :=
      sh_call (_format_git_cmd self "diff-index --quiet HEAD --") w1 in
    let t2 := (t1 ++ [Printed ">> git diff-index --quiet HEAD --";
                      Spawned (_format_git_cmd self "diff-index --quiet HEAD --")
                        rc2])%list in
    if (rc2 =? 0)%Z then
      let '(rc3, w3) := sh_call (_format_git_cmd self "checkout --detach") w2 in
      (if (rc3 =? 0)%Z then Returned false else Raised AssertionError,
       mk_state w3
         (t2 ++ [Printed ">> git checkout --detach";
                 Spawned (_format_git_cmd self "checkout --detach") rc3])%list)
    else
      let '(rc3, w3) := sh_call (_format_git_cmd self "stash -u -a") w2 in
      let t3 := (t2 ++ [Printed "Stashing local changes for later recovery";
                        Printed ">> git stash -u -a";
                        Spawned (_format_git_cmd self "stash -u -a") rc3])%list in
      if (rc3 =? 0)%Z then
        let '(rc4, w4) :=
          sh_call (_format_git_cmd self "checkout --detach") w3 in
        (if (rc4 =? 0)%Z then Returned true else Raised AssertionError,
         mk_state w4
           (t3 ++ [Printed ">> git checkout --detach";
                   Spawned (_format_git_cmd self "checkout --detach") rc4])%list)
      else (Raised AssertionError, mk_state w3 t3)
  else (Raised AssertionError, mk_state w1 t1).
Proof.
  unfold prepare_repo, _git_redirected_success, _git_redirected, bind, print,
    emit, subprocess_call, py_assert, ret, raise.
  cbv zeta. crank.
Qed.

(** C4: once the checkout of the configured branch has succeeded,
    [prepare_repo] reads the exit status of the [diff-index] probe as a
    signal.  Status zero: no stash command is spawned and, the detach
    succeeding, the call returns [False].  Any other status: [stash -u -a]
    (untracked and ignored files included) is spawned and, stash and detach
    succeeding, the call returns [True].  Whatever the probe's status, an
    exception of the call is the [AssertionError] of a later step (the
    stash or the detach) that exited with a status other than zero, never
    of the probe. *)
Theorem prepare_repo_probe (self : GitRepository) (w0 w1 w2 : W) (rc : Z) :
  sh_call (_format_git_cmd self ("checkout '" ++ branch self ++ "'")) w0
  = (0%Z, w1) ->
  sh_call (_format_git_cmd self "diff-index --quiet HEAD --") w1 = (rc, w2) ->
  (rc = 0%Z ->
   forall w3 : W,
     sh_call (_format_git_cmd self "checkout --detach") w2 = (0%Z, w3) ->
     prepare_repo self (start w0)
     = (Returned false,
        mk_state w3
          [Printed (">> git checkout '" ++ branch self ++ "'");
           Spawned (_format_git_cmd self ("checkout '" ++ branch self ++ "'")) 0;
           Printed ">> git diff-index --quiet HEAD --";
           Spawned (_format_git_cmd self "diff-index --quiet HEAD --") 0;
           Printed ">> git checkout --detach";
           Spawned (_format_git_cmd self "checkout --detach") 0]))
  /\ (rc <> 0%Z ->
      forall w3 w4 : W,
        sh_call (_format_git_cmd self "stash -u -a") w2 = (0%Z, w3) ->
        sh_call (_format_git_cmd self "checkout --detach") w3 = (0%Z, w4) ->
        prepare_repo self (start w0)
        = (Returned true,
           mk_state w4
             [Printed (">> git checkout '" ++ branch self ++ "'");
              Spawned (_format_git_cmd self ("checkout '" ++ branch self ++ "'")) 0;
              Printed ">> git diff-index --quiet HEAD --";
              Spawned (_format_git_cmd self "diff-index --quiet HEAD --") rc;
              Printed "Stashing local changes for later recovery";
              Printed ">> git stash -u -a";
              Spawned (_format_git_cmd self "stash -u -a") 0;
              Printed ">> git checkout --detach";
              Spawned (_format_git_cmd self "checkout --detach") 0]))
  /\ (forall e : exn,
        fst (prepare_repo self (start w0)) = Raised e ->
        e = AssertionError
        /\ exists (args : string) (rc' : Z),
             (args = "stash -u -a" \/ args = "checkout --detach")
             /\ rc' <> 0%Z
             /\ last (trace (snd (prepare_repo self (start w0)))) (Printed "")
                = Spawned (_format_git_cmd self args) rc').
Proof.
  intros Hco Hprobe.
  rewrite prepare_repo_run. cbv zeta. cbn [start world trace app].
  rewrite Hco. cbn [Z.eqb]. rewrite Hprobe.
  destruct (rc =? 0)%Z eqn:Ez.
  - apply Z.eqb_eq in Ez. subst rc.
    split; [| split].
    + intros _ w3 Hd. now rewrite Hd.
    + intros Hn. congruence.
    + destruct (sh_call (_format_git_cmd self "checkout --detach") w2)
        as [rc3 w3].
      destruct (rc3 =? 0)%Z eqn:E3; cbn [fst snd trace]; intros e He;
        [discriminate He |].
      injection He as <-. split; [reflexivity |].
      exists "checkout --detach", rc3. apply Z.eqb_neq in E3. auto.
  - apply Z.eqb_neq in Ez.
    split; [| split].
    + intros H0. congruence.
    + intros _ w3 w4 Hs Hd. rewrite Hs. cbn [Z.eqb]. now rewrite Hd.
    + destruct (sh_call (_format_git_cmd self "stash -u -a") w2) as [rc3 w3].
      destruct (rc3 =? 0)%Z eqn:E3.
      * destruct (sh_call (_format_git_cmd self "checkout --detach") w3)
          as [rc4 w4].
        destruct (rc4 =? 0)%Z eqn:E4; cbn [fst snd trace]; intros e He;
          [discriminate He |].
        injection He as <-. split; [reflexivity |].
        exists "checkout --detach", rc4. apply Z.eqb_neq in E4. auto.
      * cbn [fst snd trace]. intros e He.
        injection He as <-. split; [reflexivity |].
        exists "stash -u -a", rc3. apply Z.eqb_neq in E3. auto.
Qed.

(** *** How many commands an operation spawns *)

Lemma spawns_of_helpers (self : GitRepository) (cmd : string) (s : state W) :
  spawn_count (_git_get_output self cmd) s = 1%nat
  /\ spawn_count (_git_redirected self cmd) s = 1%nat
  /\ spawn_count (_git_redirected_success self cmd) s = 1%nat.
Proof. repeat split; count_spawns. Qed.

Lemma spawns_of_queries (unicode_lower : string -> string)
  (self : GitRepository) (pattern : string) (s : state W) :
  spawn_count (get_commit unicode_lower self) s = 1%nat
  /\ (1 <= spawn_count (get_log self pattern) s <= 2)%nat
  /\ (1 <= spawn_count (get_latest_tag_commit self pattern) s <= 2)%nat
  /\ (forall text : string,
        fst (get_log self pattern s) = Returned text ->
        spawn_count (get_log self pattern) s = 2%nat)
  /\ (forall text : string,
        fst (get_latest_tag_commit self pattern s) = Returned text ->
        spawn_count (get_latest_tag_commit self pattern) s = 2%nat).
Proof. repeat split; count_spawns. Qed.

Lemma spawns_of_actions (self : GitRepository) (tag_name : string)
  (stashed : bool) (s : state W) :
  (1 <= spawn_count (update_repository self) s <= 2)%nat
  /\ (1 <= spawn_count (prepare_repo self) s <= 4)%nat
  /\ (1 <= spawn_count (commit_and_tag self tag_name) s <= 4)%nat
  /\ (1 <= spawn_count (restore_repo self stashed) s <= 2)%nat
  /\ (fst (update_repository self s) = Returned tt ->
      spawn_count (update_repository self) s = 2%nat)
  /\ (forall b : bool,
        fst (prepare_repo self s) = Returned b ->
        spawn_count (prepare_repo self) s = if b then 4%nat else 3%nat)
  /\ (fst (commit_and_tag self tag_name s) = Returned tt ->
      spawn_count (commit_and_tag self tag_name) s = 4%nat)
  /\ (fst (restore_repo self stashed s) = Returned tt ->
      spawn_count (restore_repo self stashed) s
      = if stashed then 2%nat else 1%nat).
Proof.
  destruct stashed; repeat split; count_spawns.
  all: try (intros b H; injection H as <-; lia).
Qed.

(** C9: every call of a runner helper ([_git_get_output],
    [_git_redirected], [_git_redirected_success]) spawns exactly one
    command, and so does [get_commit]; the other operations run several
    helpers one after the other: [get_log], [get_latest_tag_commit],
    [update_repository] and [restore_repo] spawn one or two commands,
    [prepare_repo] and [commit_and_tag] one to four.  A call that returns
    has spawned two ([get_log], [get_latest_tag_commit],
    [update_repository]), three or four ([prepare_repo], by its result),
    four ([commit_and_tag]), one or two ([restore_repo], by its argument)
    commands, each one completed, with its exit status recorded, before the
    next starts. *)
Theorem spawns_per_operation (unicode_lower : string -> string)
  (self : GitRepository) (cmd pattern tag_name : string) (stashed : bool)
  (s : state W) :
  (spawn_count (_git_get_output self cmd) s = 1%nat
   /\ spawn_count (_git_redirected self cmd) s = 1%nat
   /\ spawn_count (_git_redirected_success self cmd) s = 1%nat)
  /\ (spawn_count (get_commit unicode_lower self) s = 1%nat
      /\ (1 <= spawn_count (get_log self pattern) s <= 2)%nat
      /\ (1 <= spawn_count (get_latest_tag_commit self pattern) s <= 2)%nat
      /\ (forall text : string,
            fst (get_log self pattern s) = Returned text ->
            spawn_count (get_log self pattern) s = 2%nat)
      /\ (forall text : string,
            fst (get_latest_tag_commit self pattern s) = Returned text ->
            spawn_count (get_latest_tag_commit self pattern) s = 2%nat))
  /\ ((1 <= spawn_count (update_repository self) s <= 2)%nat
      /\ (1 <= spawn_count (prepare_repo self) s <= 4)%nat
      /\ (1 <= spawn_count (commit_and_tag self tag_name) s <= 4)%nat
      /\ (1 <= spawn_count (restore_repo self stashed) s <= 2)%nat
      /\ (fst (update_repository self s) = Returned tt ->
          spawn_count (update_repository self) s = 2%nat)
      /\ (forall b : bool,
            fst (prepare_repo self s) = Returned b ->
            spawn_count (prepare_repo self) s = if b then 4%nat else 3%nat)
      /\ (fst (commit_and_tag self tag_name s) = Returned tt ->
          spawn_count (commit_and_tag self tag_name) s = 4%nat)
      /\ (fst (restore_repo self stashed s) = Returned tt ->
          spawn_count (restore_repo self stashed) s
          = if stashed then 2%nat else 1%nat)).
Proof.
  split; [apply spawns_of_helpers |].
  split; [apply spawns_of_queries | apply spawns_of_actions].
Qed.

End Lifecycle.

(** ** The queries against any shell *)

Section Queries.

Context {W : Type} {runner : CommandRunner W}.

(** [get_log] up to the second query, when the tag query succeeds. *)
Lemma get_log_run (self : GitRepository) (pattern : string) (w0 w1 : W)
  (out text : string) :
  sh_capture (_format_git_cmd self (tag_query pattern "2")) w0 = (0%Z, out, w1) ->
  Py.decode (Py.strip out) = Some text ->
  get_log self pattern (start w0) =
  let s1 :=
    mk_state w1 [Spawned (_format_git_cmd self (tag_query pattern "2")) 0] in
  match Py.item (Py.splitlines text) 1, Py.item (Py.splitlines text) 0 with
  | Some older, Some newer => _git_get_output self (log_query older newer) s1
  | _, _ => (Raised IndexError, s1)
  end.
Proof.
  intros Hq Hd. unfold get_log.
  rewrite bind_run, get_output_run. cbn [start world trace app].
  rewrite Hq. cbn [fst snd Z.eqb]. rewrite Hd. cbv zeta.
  unfold or_raise, bind, ret, raise.
  destruct (Py.item (Py.splitlines text) 1); [| reflexivity].
  now destruct (Py.item (Py.splitlines text) 0).
Qed.


(** C1 (as the code has it): when the tag query of [get_log] answers with
    fewer than two lines, [get_log] raises the [IndexError] of the list
    access [tags[1]]; it returns no text and spawns no [git log]. *)
Theorem get_log_too_few_tags (self : GitRepository) (pattern : string)
  (w0 w1 : W) (out text : string) :
  sh_capture (_format_git_cmd self (tag_query pattern "2")) w0 = (0%Z, out, w1) ->
  Py.decode (Py.strip out) = Some text ->
  (length (Py.splitlines text) < 2)%nat ->
  get_log self pattern (start w0)
  = (Raised IndexError,
     mk_state w1 [Spawned (_format_git_cmd self (tag_query pattern "2")) 0]).
Proof.
  intros Hq Hd Hl.
  rewrite (get_log_run self pattern w0 w1 out text Hq Hd). cbv zeta.
  unfold Py.item.
  destruct (Py.splitlines text) as [|a [|b l]]; cbn [nth_error];
    [reflexivity | reflexivity | cbn [length] in Hl; lia].
Qed.

(** C8: when the [rev-parse --short <branch>] query succeeds, [get_commit]
    returns its output trimmed and lower-cased.  For output made of ASCII
    characters the result holds no upper-case letter, has no white space
    at either end, and is the trimmed output with A-Z mapped to a-z. *)
Theorem get_commit_lower (unicode_lower : string -> string)
  (self : GitRepository) (w0 w1 : W) (out : string) :
  sh_capture (_format_git_cmd self ("rev-parse --short " ++ branch self)) w0
  = (0%Z, out, w1) ->
  let s1 :=
    mk_state w1
      [Spawned (_format_git_cmd self ("rev-parse --short " ++ branch self)) 0] in
  (Py.utf8_valid (Py.strip out) = true ->
   get_commit unicode_lower self (start w0)
   = (Returned (Py.lower unicode_lower (Py.strip out)), s1))
  /\ (Py.is_ascii out = true ->
      let h := Py.map_chars Py.lower_char (Py.strip out) in
      get_commit unicode_lower self (start w0) = (Returned h, s1)
      /\ Py.all_chars (fun c => negb (Py.is_upper c)) h = true
      /\ Py.lstrip h = h /\ Py.rstrip h = h).
Proof.
  intros Hq s1.
  assert (G : Py.utf8_valid (Py.strip out) = true ->
              get_commit unicode_lower self (start w0)
              = (Returned (Py.lower unicode_lower (Py.strip out)), s1)).
  { intros Hv. unfold get_commit.
    rewrite bind_run, get_output_run. cbn [start world trace app].
    rewrite Hq. cbn [fst snd Z.eqb]. unfold Py.decode. rewrite Hv.
    reflexivity. }
  split; [exact G |].
  intros Ha h.
  assert (Hs : Py.is_ascii (Py.strip out) = true)
    by (now apply all_chars_strip).
  split; [| split; [| split]].
  - rewrite (G (ascii_utf8_valid _ Hs)). unfold Py.lower. now rewrite Hs.
  - apply lower_no_upper.
  - unfold h. rewrite lstrip_map_lower. now rewrite (proj1 (strip_trimmed out)).
  - unfold h. rewrite rstrip_map_lower. now rewrite (proj2 (strip_trimmed out)).
Qed.

End Queries.

(** ** Command text *)

Lemma path_join_git (p : string) :
  Py.path_join p ".git"
  = if Py.is_empty p then ".git"
    else if Py.ends_with_slash p then p ++ ".git"
    else p ++ "/.git".
Proof. unfold Py.path_join. cbn [Py.starts_with_slash orb]. reflexivity. Qed.

Lemma single_quoted_some (text : string) :
  Shell.single_quoted text <> None -> Shell.single_quoted text = Some text.
Proof. unfold Shell.single_quoted. now destruct (Py.all_chars _ text). Qed.

(** C10 (as the code has it): [_format_git_cmd] is a function of the path
    and the command text alone.  The directory it names after [--git-dir=]
    is [os.path.join(path, ".git")]: [.git] for the empty path, the path
    followed by [.git] when the path ends in a slash, and the path
    followed by [/.git] otherwise, and only in this last case is the
    result the documented [git --git-dir='<path>/.git'
    --work-tree='<path>' <cmd>].  Path and command text are copied
    unchanged: the result is longer than the two by a fixed number of
    characters, so that a single quote in the path, or in a branch, tag
    name or pattern interpolated into the command text, reaches the shell
    as it is and ends the quoted word there. *)
Theorem format_git_cmd_text (self : GitRepository) (cmd : string) :
  _format_git_cmd self cmd
  = "git --git-dir='"
    ++ (if Py.is_empty (path self) then ".git"
        else if Py.ends_with_slash (path self) then path self ++ ".git"
        else path self ++ "/.git")
    ++ "' --work-tree='" ++ path self ++ "' " ++ cmd
  /\ (Py.is_empty (path self) || Py.ends_with_slash (path self) = false ->
      _format_git_cmd self cmd = documented_git_cmd (path self) cmd)
  /\ String.length (_format_git_cmd self cmd)
     = (String.length (Py.path_join (path self) ".git")
        + String.length (path self) + String.length cmd + 32)%nat
  /\ (forall names : string,
        Py.contains "'" names = true ->
        Shell.single_quoted names = None)
  /\ _format_git_cmd self
       (List.nth 2 (commit_and_tag_steps "v1' --force '") "")
     = _format_git_cmd self "tag -a 'v1' --force '' -m 'Build script tag'".
Proof.
  split; [| split; [| split; [| split]]].
  - unfold _format_git_cmd. now rewrite path_join_git.
  - intros H. apply orb_false_iff in H as [He Hs].
    unfold _format_git_cmd, documented_git_cmd.
    rewrite path_join_git, He, Hs.
    rewrite !append_assoc. reflexivity.
  - unfold _format_git_cmd.
    rewrite !append_length. cbn [String.length]. lia.
  - intros names. unfold Shell.single_quoted.
    induction names as [|c r IH]; [discriminate |].
    cbn [Py.contains Py.all_chars prefix].
    destruct (Ascii.eqb c Shell.quote_char) eqn:E; [reflexivity |].
    cbn [negb andb].
    destruct (ascii_dec "'" c) as [<- | Hne].
    + discriminate E.
    + cbn [orb]. intros H. specialize (IH H).
      now destruct (Py.all_chars _ r).
  - reflexivity.
Qed.

(** ** The changelog entry *)

(** C2 (as the code has it): under the template [get_log] passes to
    [git log], the text of an entry is the separator line of 72 dashes, a
    line [commit <abbreviated hash>], a line [Author: <author name>
    <<author date>>], a line [Commit: <committer name> <<committer
    date>>], an empty line, and the subject after four spaces, in this
    order and spacing.  The template names no e-mail address: the fields
    printed are the hash, the author's name and date, the committer's name
    and date, and the subject. *)
Theorem changelog_entry_layout (c : Pretty.commit) :
  Pretty.entry c
  = separator ++ Pretty.newline
    ++ "commit " ++ Pretty.abbrev_hash c ++ Pretty.newline
    ++ "Author: " ++ Pretty.author_name c
    ++ " <" ++ Pretty.author_date c ++ ">" ++ Pretty.newline
    ++ "Commit: " ++ Pretty.committer_name c
    ++ " <" ++ Pretty.committer_date c ++ ">" ++ Pretty.newline
    ++ Pretty.newline
    ++ "    " ++ Pretty.subject c
  /\ Pretty.fields (Pretty.parse log_template)
     = [Pretty.AbbrevHash; Pretty.AuthorName; Pretty.AuthorDate;
        Pretty.CommitterName; Pretty.CommitterDate; Pretty.Subject]
  /\ (forall older newer : string,
        exists before : string,
          log_query older newer
          = before ++ " --pretty=format:" ++ dquote ++ log_template ++ dquote).
Proof.
  split; [| split].
  - unfold Pretty.entry.
    let ps := eval vm_compute in (Pretty.parse log_template) in
    change (Pretty.parse log_template) with ps.
    cbn [Pretty.render Pretty.value].
    rewrite append_empty_r.
    unfold separator. cbn [append]. reflexivity.
  - vm_compute. reflexivity.
  - intros older newer.
    exists ("log " ++ older ++ "^.." ++ newer ++ "^ --no-merges --stat").
    unfold log_query. rewrite !append_assoc. reflexivity.
Qed.

(** ** Tag filtering *)

Lemma body_ordinary (p : string) :
  Py.all_chars Grep.ordinary p = true ->
  Grep.body p = Some (map Grep.Lit (list_ascii_of_string p), false).
Proof.
  induction p as [|c p IH]; [reflexivity |].
  cbn [Py.all_chars]. intros H. apply andb_prop in H as [Hc Hp].
  specialize (IH Hp).
  unfold Grep.ordinary in Hc. apply andb_prop in Hc as [Hc _].
  destruct c as [[] [] [] [] [] [] [] []]; try discriminate Hc;
    cbn [Grep.body Grep.is_special list_ascii_of_string map];
    rewrite ?IH; try reflexivity;
    destruct p; (reflexivity || (rewrite IH; reflexivity)).
Qed.

Lemma parse_plain (p : string) :
  Grep.plain p = true ->
  Grep.parse p
  = Some {| Grep.at_start := false;
            Grep.atoms := map Grep.Lit (list_ascii_of_string p);
            Grep.at_end := false |}.
Proof.
  unfold Grep.plain. intros H. apply andb_prop in H as [Ho Hh].
  pose proof (body_ordinary p Ho) as Hb.
  destruct p as [|c p]; [reflexivity |].
  cbn [Py.all_chars] in Ho. apply andb_prop in Ho as [Hc _].
  unfold Grep.ordinary in Hc. apply andb_prop in Hc as [Hc _].
  destruct c as [[] [] [] [] [] [] [] []];
    try discriminate Hc; try discriminate Hh;
    unfold Grep.parse; rewrite Hb; reflexivity.
Qed.

Lemma match_here_literal (p s : string) :
  Grep.match_here (map Grep.Lit (list_ascii_of_string p)) false s
  = prefix p s.
Proof.
  revert s. induction p as [|a p IH]; intros s; [now destruct s |].
  cbn [list_ascii_of_string map Grep.match_here prefix].
  destruct s as [|b s]; [reflexivity |].
  cbn [Grep.atom_ok]. rewrite IH.
  change (prefix (String a p) (String b s))
    with (if ascii_dec a b then prefix p s else false).
  destruct (ascii_dec a b) as [-> | Hne].
  - now rewrite Ascii.eqb_refl.
  - apply Ascii.eqb_neq in Hne. now rewrite Hne.
Qed.

Lemma match_anywhere_literal (p s : string) :
  Grep.match_anywhere (map Grep.Lit (list_ascii_of_string p)) false s
  = Py.contains p s.
Proof.
  induction s as [|b s IH].
  - cbn [Grep.match_anywhere Py.contains]. now rewrite match_here_literal.
  - cbn [Grep.match_anywhere Py.contains]. now rewrite match_here_literal, IH.
Qed.

Lemma ordinary_quote_free (p : string) :
  Py.all_chars Grep.ordinary p = true -> Shell.single_quoted p = Some p.
Proof.
  intros H. unfold Shell.single_quoted.
  replace (Py.all_chars (fun c => negb (Ascii.eqb c Shell.quote_char)) p)
    with true; [reflexivity |].
  symmetry. induction p as [|c p IH]; [reflexivity |].
  cbn [Py.all_chars] in *. apply andb_prop in H as [Hc Hp].
  unfold Grep.ordinary in Hc. apply andb_prop in Hc as [_ Hc].
  now rewrite Hc, IH.
Qed.

(** On plain patterns the pipeline is the substring filter. *)
Lemma pipeline_plain (pattern : string) (count : nat) (input : list string) :
  Grep.plain pattern = true ->
  Grep.pipeline pattern count input
  = Some (Grep.substring_filter pattern count input).
Proof.
  intros H. unfold Grep.pipeline, Grep.substring_filter.
  pose proof H as H'. unfold Grep.plain in H'.
  apply andb_prop in H' as [Ho _].
  rewrite (ordinary_quote_free pattern Ho), (parse_plain pattern H).
  f_equal. f_equal. apply filter_ext. intros line.
  unfold Grep.selects. cbn [Grep.at_start Grep.atoms Grep.at_end].
  apply match_anywhere_literal.
Qed.

Lemma format_git_cmd_split (self : GitRepository) (cmd : string) :
  _format_git_cmd self cmd = _format_git_cmd self "" ++ cmd.
Proof.
  unfold _format_git_cmd. rewrite !append_assoc. reflexivity.
Qed.

Lemma sim_arguments (self : GitRepository) (cmd : string) :
  Shell.single_quoted (path self) <> None ->
  Sim.arguments self (_format_git_cmd self cmd) = Some cmd.
Proof.
  intros H. unfold Sim.arguments, Sim.git_words.
  rewrite (single_quoted_some _ H).
  rewrite (format_git_cmd_split self cmd). apply strip_prefix_append.
Qed.

Lemma sim_query_two (pattern : string) (r : Sim.repo) :
  Sim.query (tag_query pattern "2") r = Sim.tag_lines pattern 2 r.
Proof.
  unfold Sim.query, Shell.between_text, tag_query.
  rewrite strip_prefix_append.
  change (pattern ++ "' | head -n" ++ "2") with (pattern ++ "' | head -n2").
  now rewrite strip_suffix_append.
Qed.

Lemma sim_query_one (pattern : string) (r : Sim.repo) :
  Sim.query (tag_query pattern "1") r = Sim.tag_lines pattern 1 r.
Proof.
  unfold Sim.query, Shell.between_text, tag_query.
  rewrite strip_prefix_append.
  change (pattern ++ "' | head -n" ++ "1") with (pattern ++ "' | head -n1").
  destruct (Shell.strip_suffix "' | head -n2" (pattern ++ "' | head -n1"))
    as [q|] eqn:E.
  - apply strip_suffix_sound in E.
    apply (f_equal (fun t => last_char t "x"%char)) in E.
    rewrite !last_char_append in E. discriminate E.
  - now rewrite strip_suffix_append.
Qed.

(** C3 (as the code has it): the tag queries of [get_log] and
    [get_latest_tag_commit] hand the pattern to [grep] between single
    quotes, and [grep] reads it as a basic regular expression.  For a
    plain pattern (ordinary characters only: no period, bracket,
    backslash, asterisk, circumflex, dollar sign, line feed or single
    quote, and no hyphen in front) the lines selected are exactly the tag
    names that contain the pattern as a substring, in the order of the
    listing, cut to the first two (or one); and this is what a repository
    answers to either query. *)
Theorem tag_filter_plain_pattern (self : GitRepository) (pattern : string)
  (count : nat) (input : list string) (r : Sim.repo) :
  Grep.plain pattern = true ->
  Grep.pipeline pattern count input
  = Some (Grep.substring_filter pattern count input)
  /\ (Shell.single_quoted (path self) <> None ->
      sh_capture (CommandRunner := Sim.runner self)
        (_format_git_cmd self (tag_query pattern "2")) (Some r)
      = (0%Z,
         Shell.unlines
           (Grep.substring_filter pattern 2 (map fst (Sim.tags r))),
         Some r)
      /\ sh_capture (CommandRunner := Sim.runner self)
           (_format_git_cmd self (tag_query pattern "1")) (Some r)
         = (0%Z,
            Shell.unlines
              (Grep.substring_filter pattern 1 (map fst (Sim.tags r))),
            Some r)).
Proof.
  intros Hp. split; [now apply pipeline_plain |].
  intros Hq. cbn [sh_capture Sim.runner]. unfold Sim.run_capture.
  rewrite !(sim_arguments self _ Hq).
  rewrite sim_query_two, sim_query_one. unfold Sim.tag_lines.
  rewrite !(pipeline_plain pattern _ _ Hp). split; reflexivity.
Qed.

(** ** The prepare/restore cycle on a repository *)






(** ** The changelog range on a repository *)


















(** ** Worked examples *)

(** C1, as stated, fails: with a single tag matching the pattern,
    [get_log] ends in the [IndexError] of an out-of-range list access. *)
Lemma get_log_single_tag_index_error :
  Grep.pipeline "v1" 2 (map fst (Sim.tags sample_repo)) = Some ["v1"]
  /\ get_log (runner := Sim.runner demo) demo "v1" (start (Some sample_repo))
     = (Raised IndexError,
        mk_state (Some sample_repo)
          [Spawned (_format_git_cmd demo (tag_query "v1" "2")) 0]).
Proof. split; vm_compute; reflexivity. Qed.

(** A tag query that answers one line. *)
Lemma get_log_too_few_tags_witness :
  get_log (runner := Script.runner) demo "v" (start [(0%Z, "v1")])
  = (Raised IndexError,
     mk_state [] [Spawned (_format_git_cmd demo (tag_query "v" "2")) 0]).
Proof.
  apply (get_log_too_few_tags (runner := Script.runner) demo "v"
           [(0%Z, "v1")] [] "v1" "v1");
    [reflexivity | reflexivity | vm_compute; lia].
Defined.

(** C2, as stated, fails: the entry of a commit shows neither e-mail
    address, and does not change with them. *)
Lemma changelog_entry_without_email :
  Py.contains (Pretty.author_email sample_commit) (Pretty.entry sample_commit)
  = false
  /\ Py.contains (Pretty.committer_email sample_commit)
       (Pretty.entry sample_commit) = false
  /\ Pretty.entry (with_emails "carol@example.org" "dan@example.org"
                     sample_commit)
     = Pretty.entry sample_commit.
Proof. repeat split; vm_compute; reflexivity. Qed.

(** C3, as stated, fails: the pattern [.] selects the tag [v1], which
    holds no period, and [get_latest_tag_commit] resolves its parent. *)
Lemma period_pattern_selects_any_tag :
  Py.contains "." "v1" = false
  /\ Grep.substring_filter "." 1 (map fst (Sim.tags sample_repo)) = []
  /\ Grep.pipeline "." 1 (map fst (Sim.tags sample_repo)) = Some ["v1"]
  /\ get_latest_tag_commit (runner := Sim.runner demo) demo "."
       (start (Some sample_repo))
     = (Returned "abc1234",
        mk_state (Some sample_repo)
          [Spawned (_format_git_cmd demo (tag_query "." "1")) 0;
           Spawned (_format_git_cmd demo "rev-parse --short v1^") 0]).
Proof. repeat split; vm_compute; reflexivity. Qed.

(** The plain pattern [v] on a listing, and on the sample repository. *)
Lemma tag_filter_plain_pattern_witness :
  Grep.pipeline "v" 2 ["v2"; "rel-1"; "v1"; "v0"] = Some ["v2"; "v1"]
  /\ sh_capture (CommandRunner := Sim.runner demo)
       (_format_git_cmd demo (tag_query "v" "2")) (Some sample_repo)
     = (0%Z, "v1" ++ Py.chr 10, Some sample_repo).
Proof.
  destruct (tag_filter_plain_pattern demo "v" 2 ["v2"; "rel-1"; "v1"; "v0"]
              sample_repo eq_refl) as [H1 H2].
  split; [exact H1 |].
  apply H2. discriminate.
Defined.

(** A dirty tree (probe status 1) and a clean one (probe status 0). *)
Lemma prepare_repo_probe_witness :
  prepare_repo (runner := Script.runner) demo
    (start [(0, ""); (1, ""); (0, ""); (0, "")]%Z)
  = (Returned true,
     mk_state []
       [Printed ">> git checkout 'master'";
        Spawned (_format_git_cmd demo "checkout 'master'") 0;
        Printed ">> git diff-index --quiet HEAD --";
        Spawned (_format_git_cmd demo "diff-index --quiet HEAD --") 1;
        Printed "Stashing local changes for later recovery";
        Printed ">> git stash -u -a";
        Spawned (_format_git_cmd demo "stash -u -a") 0;
        Printed ">> git checkout --detach";
        Spawned (_format_git_cmd demo "checkout --detach") 0])
  /\ prepare_repo (runner := Script.runner) demo
       (start [(0, ""); (0, ""); (0, "")]%Z)
     = (Returned false,
        mk_state []
          [Printed ">> git checkout 'master'";
           Spawned (_format_git_cmd demo "checkout 'master'") 0;
           Printed ">> git diff-index --quiet HEAD --";
           Spawned (_format_git_cmd demo "diff-index --quiet HEAD --") 0;
           Printed ">> git checkout --detach";
           Spawned (_format_git_cmd demo "checkout --detach") 0]).
Proof.
  split.
  - apply (proj1 (proj2
             (prepare_repo_probe (runner := Script.runner) demo
                [(0, ""); (1, ""); (0, ""); (0, "")]%Z
                [(1, ""); (0, ""); (0, "")]%Z
                [(0, ""); (0, "")]%Z 1%Z eq_refl eq_refl))
             ltac:(discriminate) [(0, "")]%Z [] eq_refl eq_refl).
  - apply (proj1
             (prepare_repo_probe (runner := Script.runner) demo
                [(0, ""); (0, ""); (0, "")]%Z
                [(0, ""); (0, "")]%Z
                [(0, "")]%Z 0%Z eq_refl eq_refl)
             eq_refl [] eq_refl).
Defined.

(** A hash printed with capitals and a final line feed. *)
Lemma get_commit_lower_witness :
  get_commit (runner := Script.runner) (fun s => s) demo
    (start [(0%Z, "ABCdef1" ++ Py.chr 10)])
  = (Returned "abcdef1",
     mk_state [] [Spawned (_format_git_cmd demo "rev-parse --short master") 0]).
Proof.
  apply (proj2 (get_commit_lower (runner := Script.runner) (fun s => s) demo
                  [(0%Z, "ABCdef1" ++ Py.chr 10)] []
                  ("ABCdef1" ++ Py.chr 10) eq_refl) eq_refl).
Defined.





(** C9, as stated, fails: a successful [update_repository] spawns two
    commands and a [prepare_repo] that stashes spawns four. *)
Lemma update_repository_spawns_two :
  fst (update_repository (runner := Script.runner) demo
         (start [(0, ""); (0, "")]%Z)) = Returned tt
  /\ spawn_count (update_repository (runner := Script.runner) demo)
       (start [(0, ""); (0, "")]%Z) = 2%nat
  /\ spawn_count (prepare_repo (runner := Script.runner) demo)
       (start [(0, ""); (1, ""); (0, ""); (0, "")]%Z) = 4%nat.
Proof. repeat split; vm_compute; reflexivity. Qed.

(** A [commit_and_tag] whose four steps succeed. *)
Lemma spawns_per_operation_witness :
  spawn_count (commit_and_tag (runner := Script.runner) demo "nightly_1")
    (start [(0, ""); (0, ""); (0, ""); (0, "")]%Z) = 4%nat.
Proof.
  apply (spawns_per_operation (runner := Script.runner) (fun s => s) demo
           "" "" "nightly_1" false
           (start [(0, ""); (0, ""); (0, ""); (0, "")]%Z)).
  reflexivity.
Defined.

(** C10, as stated, fails: for a path that ends in a slash, and for the
    empty path, the command differs from the documented text. *)
Lemma format_git_cmd_trailing_slash :
  _format_git_cmd {| branch := "master"; path := "/srv/build/" |} "status"
  = "git --git-dir='/srv/build/.git' --work-tree='/srv/build/' status"
  /\ documented_git_cmd "/srv/build/" "status"
     = "git --git-dir='/srv/build//.git' --work-tree='/srv/build/' status"
  /\ _format_git_cmd {| branch := "master"; path := "" |} "status"
     = "git --git-dir='.git' --work-tree='' status"
  /\ documented_git_cmd "" "status"
     = "git --git-dir='/.git' --work-tree='' status".
Proof. repeat split; vm_compute; reflexivity. Qed.

(** A path that is neither empty nor ended by a slash. *)
Lemma format_git_cmd_text_witness :
  _format_git_cmd demo "status" = documented_git_cmd "/srv/build" "status".
Proof.
  apply (proj1 (proj2 (format_git_cmd_text demo "status"))). reflexivity.
Defined.

(** ** Further properties of the operations *)

Section Further.

Context {W : Type} {runner : CommandRunner W}.

(** X1: [update_repository] spawns [checkout '<branch>'] and then, only
    if the checkout exited with status zero, [pull origin '<branch>']; it
    returns when both exited with status zero and raises [AssertionError]
    at the first that did not. *)
Theorem update_repository_sequence (self : GitRepository) (s : state W) :
  exists (n : nat) (events : list event) (rc : Z),
    trace (snd (update_repository self s)) = (trace s ++ events)%list
    /\ (1 <= n <= 2)%nat
    /\ spawned events
       = map (_format_git_cmd self)
           (firstn n ["checkout '" ++ branch self ++ "'";
                      "pull origin '" ++ branch self ++ "'"])
    /\ statuses events = (repeat 0%Z (n - 1) ++ [rc])%list
    /\ ((rc = 0%Z /\ n = 2%nat
         /\ fst (update_repository self s) = Returned tt)
        \/ (rc <> 0%Z
            /\ fst (update_repository self s) = Raised AssertionError)).
Proof.
  change (update_repository self)
    with (run_all self ["checkout '" ++ branch self ++ "'";
                        "pull origin '" ++ branch self ++ "'"]).
  apply run_all_spec. discriminate.
Qed.

(** X2: [restore_repo] first spawns [checkout '<branch>'].  It spawns
    [stash pop] exactly when its argument is [True] and the checkout
    exited with status zero; it returns exactly when every command it
    spawned exited with status zero, and raises [AssertionError]
    otherwise. *)
Theorem restore_repo_stash_pop (self : GitRepository) (stashed : bool)
  (s : state W) :
  exists events : list event,
    trace (snd (restore_repo self stashed s)) = (trace s ++ events)%list
    /\ hd_error (spawned events)
       = Some (_format_git_cmd self ("checkout '" ++ branch self ++ "'"))
    /\ (In (_format_git_cmd self "stash pop") (spawned events)
        <-> stashed = true
            /\ fst (sh_call
                      (_format_git_cmd self
                         ("checkout '" ++ branch self ++ "'"))
                      (world s)) = 0%Z)
    /\ (fst (restore_repo self stashed s) = Returned tt
        <-> forallb (Z.eqb 0) (statuses events) = true)
    /\ (fst (restore_repo self stashed s) = Returned tt
        \/ fst (restore_repo self stashed s) = Raised AssertionError).
Proof.
  unfold restore_repo. rewrite bind_run, success_run.
  destruct (sh_call (_format_git_cmd self ("checkout '" ++ branch self ++ "'"))
              (world s)) as [rc1 w1].
  cbn [fst snd].
  destruct (rc1 =? 0)%Z eqn:E1.
  - apply Z.eqb_eq in E1. subst rc1.
    destruct stashed.
    + rewrite bind_run. unfold print, emit. cbn [world trace].
      rewrite success_run. cbn [world trace].
      destruct (sh_call (_format_git_cmd self "stash pop") w1) as [rc2 w2].
      cbn [fst snd]. rewrite <- !app_assoc. eexists.
      split; [reflexivity |]. cbn [app spawned statuses hd_error forallb Z.eqb andb].
      split; [reflexivity |].
      split; [split; [auto | intros _; right; left; reflexivity] |].
      rewrite andb_true_r.
      destruct rc2; cbn [Z.eqb]; split; try (split; congruence); auto.
    + unfold ret. cbn [fst snd trace]. eexists.
      split; [reflexivity |]. cbn [spawned statuses hd_error forallb Z.eqb andb].
      split; [reflexivity |].
      split; [| split; [tauto | auto]].
      split; [| intros [H _]; discriminate H].
      intros [H | []]. apply format_git_cmd_inj in H. discriminate H.
  - cbn [fst snd trace]. eexists.
    split; [reflexivity |]. cbn [spawned statuses hd_error forallb andb].
    split; [reflexivity |].
    split; [| split].
    + split.
      * intros [H | []]. apply format_git_cmd_inj in H. discriminate H.
      * intros [_ H]. subst rc1. discriminate E1.
    + rewrite andb_true_r. rewrite Z.eqb_sym, E1. split; discriminate.
    + auto.
Qed.

(** X3: when the first checkout of [prepare_repo] exits with a status
    other than zero, the call raises [AssertionError] at once: the probe,
    the stash and the detach are never spawned. *)
Theorem prepare_repo_checkout_fails (self : GitRepository) (w0 w1 : W)
  (rc : Z) :
  sh_call (_format_git_cmd self ("checkout '" ++ branch self ++ "'")) w0
  = (rc, w1) ->
  rc <> 0%Z ->
  prepare_repo self (start w0)
  = (Raised AssertionError,
     mk_state w1
       [Printed (">> git checkout '" ++ branch self ++ "'");
        Spawned (_format_git_cmd self ("checkout '" ++ branch self ++ "'"))
          rc]).
Proof.
  intros Hco Hrc. rewrite prepare_repo_run. cbv zeta.
  cbn [start world trace app]. rewrite Hco.
  apply Z.eqb_neq in Hrc. now rewrite Hrc.
Qed.

(** X4: whenever [prepare_repo] returns, the flag it returns is [True]
    exactly when it spawned [stash -u -a]; the first command it spawned is
    the checkout of the branch, the last one is [checkout --detach], and
    every command but the probe exited with status zero. *)
Theorem prepare_repo_flag (self : GitRepository) (s : state W) (b : bool) :
  fst (prepare_repo self s) = Returned b ->
  exists (events : list event) (probe : Z),
    trace (snd (prepare_repo self s)) = (trace s ++ events)%list
    /\ (b = true <-> In (_format_git_cmd self "stash -u -a") (spawned events))
    /\ (b = true <-> probe <> 0%Z)
    /\ hd_error (spawned events)
       = Some (_format_git_cmd self ("checkout '" ++ branch self ++ "'"))
    /\ last (spawned events) "" = _format_git_cmd self "checkout --detach"
    /\ statuses events
       = (if b then [0; probe; 0; 0] else [0; probe; 0])%Z.
Proof.
  rewrite prepare_repo_run. cbv zeta.
  destruct (sh_call (_format_git_cmd self ("checkout '" ++ branch self ++ "'"))
              (world s)) as [rc1 w1].
  destruct (rc1 =? 0)%Z eqn:E1; [| discriminate].
  apply Z.eqb_eq in E1. subst rc1.
  destruct (sh_call (_format_git_cmd self "diff-index --quiet HEAD --") w1)
    as [rc2 w2].
  destruct (rc2 =? 0)%Z eqn:E2.
  - apply Z.eqb_eq in E2. subst rc2.
    destruct (sh_call (_format_git_cmd self "checkout --detach") w2)
      as [rc3 w3].
    destruct (rc3 =? 0)%Z eqn:E3; [| discriminate].
    apply Z.eqb_eq in E3. subst rc3.
    cbn [fst snd trace]. intros [= <-].
    rewrite <- !app_assoc. eexists. exists 0%Z.
    split; [reflexivity |].
    cbn [app spawned statuses hd_error last].
    split; [| split; [| repeat split]].
    + split; [discriminate |].
      intros [H | [H | [H | []]]];
        apply format_git_cmd_inj in H; discriminate H.
    + split; [discriminate | intros H; now elim H].
  - apply Z.eqb_neq in E2.
    destruct (sh_call (_format_git_cmd self "stash -u -a") w2) as [rc3 w3].
    destruct (rc3 =? 0)%Z eqn:E3; [| discriminate].
    apply Z.eqb_eq in E3. subst rc3.
    destruct (sh_call (_format_git_cmd self "checkout --detach") w3)
      as [rc4 w4].
    destruct (rc4 =? 0)%Z eqn:E4; [| discriminate].
    apply Z.eqb_eq in E4. subst rc4.
    cbn [fst snd trace]. intros [= <-].
    rewrite <- !app_assoc. eexists. exists rc2.
    split; [reflexivity |].
    cbn [app spawned statuses hd_error last].
    split; [| split; [| repeat split]].
    + split; [intros _; right; right; left; reflexivity | reflexivity].
    + split; [intros _; exact E2 | reflexivity].
Qed.

Lemma run_all_echoed (self : GitRepository) (cmds : list string)
  (s : state W) :
  exists events : list event,
    trace (snd (run_all self cmds s)) = (trace s ++ events)%list
    /\ echoed self events = true.
Proof.
  revert s. induction cmds as [|c r IH]; intros s.
  - exists []. cbn [run_all ret snd]. now rewrite app_nil_r.
  - destruct r as [|c' r'].
    + cbn [run_all]. rewrite success_run. cbn [snd trace]. eexists.
      split; [reflexivity |].
      cbn [echoed append Shell.strip_prefix Ascii.eqb Bool.eqb].
      now rewrite String.eqb_refl.
    + change (run_all self (c :: c' :: r'))
        with (_git_redirected_success self c ;; run_all self (c' :: r')).
      rewrite bind_run, success_run.
      destruct (fst (sh_call (_format_git_cmd self c) (world s)) =? 0)%Z.
      * match goal with
        | |- context [run_all self (c' :: r') ?st] =>
            destruct (IH st) as (ev & Ht & He)
        end.
        rewrite Ht. cbn [trace]. rewrite <- app_assoc. eexists.
        split; [reflexivity |].
        cbn [app echoed append Shell.strip_prefix Ascii.eqb Bool.eqb].
        now rewrite String.eqb_refl, He.
      * cbn [snd trace]. eexists. split; [reflexivity |].
        cbn [echoed append Shell.strip_prefix Ascii.eqb Bool.eqb].
        now rewrite String.eqb_refl.
Qed.

Lemma printed_app (a b : list event) :
  printed (a ++ b)%list = (printed a ++ printed b)%list.
Proof.
  induction a as [|e a IH]; simpl; [reflexivity |].
  destruct e; simpl; now rewrite IH.
Qed.

(** X5: every command a lifecycle operation spawns is announced: in the
    events that [update_repository], [prepare_repo], [commit_and_tag] and
    [restore_repo] add to the trace, each command comes right after the
    console line [>> git <arguments>] made of its own arguments, whatever
    the exit statuses. *)
Theorem actions_echoed (self : GitRepository) (tag_name : string)
  (stashed : bool) (s : state W) :
  (exists events : list event,
     trace (snd (update_repository self s)) = (trace s ++ events)%list
     /\ echoed self events = true)
  /\ (exists events : list event,
        trace (snd (prepare_repo self s)) = (trace s ++ events)%list
        /\ echoed self events = true)
  /\ (exists events : list event,
        trace (snd (commit_and_tag self tag_name s)) = (trace s ++ events)%list
        /\ echoed self events = true)
  /\ (exists events : list event,
        trace (snd (restore_repo self stashed s)) = (trace s ++ events)%list
        /\ echoed self events = true).
Proof.
  split; [| split; [| split]].
  - change (update_repository self)
      with (run_all self ["checkout '" ++ branch self ++ "'";
                          "pull origin '" ++ branch self ++ "'"]).
    apply run_all_echoed.
  - rewrite prepare_repo_run. cbv zeta.
    repeat first
      [ match goal with
        | |- context [(?rc =? 0)%Z] => destruct (rc =? 0)%Z
        end
      | match goal with
        | |- context [sh_call ?c ?w] => destruct (sh_call c w) as [? ?]
        end ];
      cbn [snd trace]; rewrite <- ?app_assoc; eexists;
      (split; [reflexivity |]);
      cbn [app echoed append Shell.strip_prefix Ascii.eqb Bool.eqb];
      rewrite ?String.eqb_refl; reflexivity.
  - change (commit_and_tag self tag_name)
      with (run_all self (commit_and_tag_steps tag_name)).
    apply run_all_echoed.
  - unfold restore_repo. rewrite bind_run, success_run.
    destruct (sh_call (_format_git_cmd self ("checkout '" ++ branch self ++ "'"))
                (world s)) as [rc1 w1].
    cbn [fst snd].
    destruct (rc1 =? 0)%Z; [destruct stashed |].
    + rewrite bind_run. unfold print, emit. cbn [world trace].
      rewrite success_run. cbn [snd trace]. rewrite <- !app_assoc. eexists.
      split; [reflexivity |].
      cbn [app echoed append Shell.strip_prefix Ascii.eqb Bool.eqb].
      now rewrite !String.eqb_refl.
    + unfold ret. cbn [snd trace]. eexists. split; [reflexivity |].
      cbn [echoed append Shell.strip_prefix Ascii.eqb Bool.eqb].
      now rewrite String.eqb_refl.
    + cbn [snd trace]. eexists. split; [reflexivity |].
      cbn [echoed append Shell.strip_prefix Ascii.eqb Bool.eqb].
      now rewrite String.eqb_refl.
Qed.

(** X6: the queries write nothing to the console: [_git_get_output],
    [get_commit], [get_log] and [get_latest_tag_commit] leave the printed
    lines of the trace as they were, whether they return or raise. *)
Theorem queries_print_nothing (unicode_lower : string -> string)
  (self : GitRepository) (cmd pattern : string) (s : state W) :
  printed (trace (snd (_git_get_output self cmd s))) = printed (trace s)
  /\ printed (trace (snd (get_commit unicode_lower self s)))
     = printed (trace s)
  /\ printed (trace (snd (get_log self pattern s))) = printed (trace s)
  /\ printed (trace (snd (get_latest_tag_commit self pattern s)))
     = printed (trace s).
Proof.
  repeat split;
    unfold get_commit, get_log, get_latest_tag_commit, _git_get_output, bind,
      subprocess_check_output, or_raise, ret, raise;
    repeat (cbn [world trace fst snd];
            first
              [ match goal with
                | |- context [(?rc =? 0)%Z] => destruct (rc =? 0)%Z
                end
              | match goal with
                | |- context [Py.decode ?x] => destruct (Py.decode x)
                end
              | match goal with
                | |- context [Py.item ?l ?n] => destruct (Py.item l n)
                end
              | match goal with
                | |- context [sh_capture ?c ?w] =>
                    destruct (sh_capture c w) as [[? ?] ?]
                end ]);
    cbn [world trace fst snd];
    rewrite ?printed_app; cbn [printed]; rewrite ?app_nil_r; reflexivity.
Qed.

(** X7: whatever [_git_get_output] returns is trimmed, valid UTF-8 text
    of a command that exited with status zero: it is the captured output
    without the white space at its ends, and has none at either end. *)
Theorem git_get_output_trimmed (self : GitRepository) (cmd : string)
  (s : state W) (text : string) :
  fst (_git_get_output self cmd s) = Returned text ->
  fst (fst (sh_capture (_format_git_cmd self cmd) (world s))) = 0%Z
  /\ text
     = Py.strip (snd (fst (sh_capture (_format_git_cmd self cmd) (world s))))
  /\ Py.utf8_valid text = true
  /\ Py.lstrip text = text /\ Py.rstrip text = text.
Proof.
  rewrite get_output_run. cbv zeta. cbn [fst].
  destruct (sh_capture (_format_git_cmd self cmd) (world s)) as [[rc out] w].
  cbn [fst snd].
  destruct (rc =? 0)%Z eqn:E; [| discriminate].
  apply Z.eqb_eq in E. unfold Py.decode.
  destruct (Py.utf8_valid (Py.strip out)) eqn:V; [| discriminate].
  intros [= <-].
  split; [exact E |]. split; [reflexivity |]. split; [exact V |].
  apply strip_trimmed.
Qed.

(** X8: a query whose first command exits with a status other than zero
    raises [CalledProcessError] with that status and that command line,
    and spawns nothing else: [get_commit], [get_log] (no [git log]) and
    [get_latest_tag_commit] (no [rev-parse]). *)
Theorem query_failure_propagates (unicode_lower : string -> string)
  (self : GitRepository) (pattern : string) (w0 w1 : W) (rc : Z)
  (out : string) :
  rc <> 0%Z ->
  (sh_capture (_format_git_cmd self ("rev-parse --short " ++ branch self)) w0
   = (rc, out, w1) ->
   get_commit unicode_lower self (start w0)
   = (Raised
        (CalledProcessError rc
           (_format_git_cmd self ("rev-parse --short " ++ branch self))),
      mk_state w1
        [Spawned (_format_git_cmd self ("rev-parse --short " ++ branch self))
           rc]))
  /\ (sh_capture (_format_git_cmd self (tag_query pattern "2")) w0
      = (rc, out, w1) ->
      get_log self pattern (start w0)
      = (Raised
           (CalledProcessError rc
              (_format_git_cmd self (tag_query pattern "2"))),
         mk_state w1
           [Spawned (_format_git_cmd self (tag_query pattern "2")) rc]))
  /\ (sh_capture (_format_git_cmd self (tag_query pattern "1")) w0
      = (rc, out, w1) ->
      get_latest_tag_commit self pattern (start w0)
      = (Raised
           (CalledProcessError rc
              (_format_git_cmd self (tag_query pattern "1"))),
         mk_state w1
           [Spawned (_format_git_cmd self (tag_query pattern "1")) rc])).
Proof.
  intros Hrc. apply Z.eqb_neq in Hrc.
  repeat split; intros Hq;
    unfold get_commit, get_log, get_latest_tag_commit;
    rewrite bind_run, get_output_run; cbn [start world trace app];
    rewrite Hq; cbn [fst snd]; now rewrite Hrc.
Qed.

(** X9: when its tag query succeeds, [get_latest_tag_commit] asks for
    [rev-parse --short <tag>^], where the tag is the trimmed output of the
    tag query, and its result is the result of that second query, case
    unchanged.  There is no check for an empty answer: when no tag
    matches, the command spawned is [rev-parse --short ^]. *)
Theorem get_latest_tag_commit_resolution (self : GitRepository)
  (pattern : string) (w0 w1 : W) (out : string) :
  sh_capture (_format_git_cmd self (tag_query pattern "1")) w0
  = (0%Z, out, w1) ->
  Py.utf8_valid (Py.strip out) = true ->
  get_latest_tag_commit self pattern (start w0)
  = _git_get_output self ("rev-parse --short " ++ Py.strip out ++ "^")
      (mk_state w1 [Spawned (_format_git_cmd self (tag_query pattern "1")) 0])
  /\ spawned (trace (snd (get_latest_tag_commit self pattern (start w0))))
     = [_format_git_cmd self (tag_query pattern "1");
        _format_git_cmd self ("rev-parse --short " ++ Py.strip out ++ "^")]
  /\ (Py.strip out = "" ->
      spawned (trace (snd (get_latest_tag_commit self pattern (start w0))))
      = [_format_git_cmd self (tag_query pattern "1");
         _format_git_cmd self "rev-parse --short ^"]).
Proof.
  intros Hq Hv.
  assert (E : get_latest_tag_commit self pattern (start w0)
              = _git_get_output self
                  ("rev-parse --short " ++ Py.strip out ++ "^")
                  (mk_state w1
                     [Spawned (_format_git_cmd self (tag_query pattern "1"))
                        0])).
  { unfold get_latest_tag_commit.
    rewrite bind_run, get_output_run. cbn [start world trace app].
    rewrite Hq. cbn [fst snd Z.eqb]. unfold Py.decode. now rewrite Hv. }
  assert (S : spawned (trace (snd (get_latest_tag_commit self pattern
                                     (start w0))))
              = [_format_git_cmd self (tag_query pattern "1");
                 _format_git_cmd self
                   ("rev-parse --short " ++ Py.strip out ++ "^")]).
  { rewrite E, get_output_run. cbn [snd trace]. now rewrite spawned_app. }
  split; [exact E |]. split; [exact S |].
  intros He. rewrite S, He. reflexivity.
Qed.

End Further.

(** ** Worked examples of the further properties *)

(** A checkout that fails with status 1. *)
Lemma prepare_repo_checkout_fails_witness :
  prepare_repo (runner := Script.runner) demo (start [(1%Z, "")])
  = (Raised AssertionError,
     mk_state []
       [Printed ">> git checkout 'master'";
        Spawned (_format_git_cmd demo "checkout 'master'") 1]).
Proof.
  apply (prepare_repo_checkout_fails (runner := Script.runner) demo
           [(1%Z, "")] [] 1%Z eq_refl).
  discriminate.
Defined.

(** A run that stashes: the probe exits with status 1. *)
Lemma prepare_repo_flag_witness :
  exists (events : list event) (probe : Z),
    trace (snd (prepare_repo (runner := Script.runner) demo
                  (start [(0, ""); (1, ""); (0, ""); (0, "")]%Z)))
    = events
    /\ (true = true
        <-> In (_format_git_cmd demo "stash -u -a") (spawned events))
    /\ statuses events = [0; probe; 0; 0]%Z.
Proof.
  destruct (prepare_repo_flag (runner := Script.runner) demo
              (start [(0, ""); (1, ""); (0, ""); (0, "")]%Z) true eq_refl)
    as (ev & probe & Ht & Hs & _ & _ & _ & Hz).
  exists ev, probe. repeat split; try assumption; apply Hs.
Defined.

(** Output with white space around a name. *)
Lemma git_get_output_trimmed_witness :
  Py.lstrip "v1" = "v1" /\ Py.rstrip "v1" = "v1".
Proof.
  destruct (git_get_output_trimmed (runner := Script.runner) demo
              "describe" (start [(0%Z, "  v1 " ++ Py.chr 10)]) "v1" eq_refl)
    as (_ & _ & _ & H).
  exact H.
Defined.

(** A branch that does not exist: [rev-parse] exits with status 128. *)
Lemma query_failure_propagates_witness :
  get_commit (runner := Script.runner) (fun s => s) demo
    (start [(128%Z, "")])
  = (Raised
       (CalledProcessError 128
          (_format_git_cmd demo "rev-parse --short master")),
     mk_state []
       [Spawned (_format_git_cmd demo "rev-parse --short master") 128]).
Proof.
  apply (proj1 (query_failure_propagates (runner := Script.runner)
                  (fun s => s) demo "" [(128%Z, "")] [] 128%Z ""
                  ltac:(discriminate))).
  reflexivity.
Defined.

(** No tag matches: the tag query prints nothing. *)
Lemma get_latest_tag_commit_resolution_witness :
  spawned
    (trace
       (snd (get_latest_tag_commit (runner := Script.runner) demo "rel-"
               (start [(0%Z, ""); (128%Z, "")]))))
  = [_format_git_cmd demo (tag_query "rel-" "1");
     _format_git_cmd demo "rev-parse --short ^"].
Proof.
  apply (proj2 (proj2
           (get_latest_tag_commit_resolution (runner := Script.runner) demo
              "rel-" [(0%Z, ""); (128%Z, "")] [(128%Z, "")] ""
              eq_refl eq_refl))).
  reflexivity.
Defined.
